(** * led-stock-ticker: a shallow embedding of [data/ticker.py] and [api/data.py]

    The development follows the two Python modules:

    - [Py]       the part of the Python runtime the code relies on: exceptions,
                 a state-and-exception monad, binary64 arithmetic with
                 Python's [ZeroDivisionError], the ["{:.2f}"] format,
                 JSON values and subscripting, [datetime.weekday()];
    - [Ticker]   class [Ticker] of [data/ticker.py];
    - [Data]     class [Data] of [api/data.py], with the worker pool of
                 [multitasking] as an interleaving of atomic task completions.

    Then come [Examples], the worlds and configurations the code is run in;
    [PyFacts], [TickerFacts] and [DataFacts], what the definitions compute;
    [TickerSpec] and [DataSpec], the statements of the specification held
    against the code; [TickerProps] and [DataProps], further properties of
    the methods.
*)

From Stdlib Require Import ZArith List String Ascii Bool Lia.
From Stdlib Require Import PrimFloat FloatOps SpecFloat.
From Stdlib Require Import DecimalString.
Import ListNotations.

Set Implicit Arguments.
Set Warnings "-register-all".

Local Open Scope string_scope.
Local Open Scope Z_scope.

(* ================================================================== *)
(** * The Python runtime *)
(* ================================================================== *)

Module Py.

(** ** Exceptions and results *)

(** The exceptions the two modules can meet.  [SystemExit] is what
    [sys.exit(code)] raises; it derives from [BaseException], so no
    [except RequestException] clause catches it. *)
Inductive exn : Type :=
| RequestException
| KeyError
| IndexError
| TypeError
| ValueError
| ZeroDivisionError
| SystemExit (code : Z).

Definition exn_eqb (a b : exn) : bool :=
  match a, b with
  | RequestException, RequestException => true
  | KeyError, KeyError => true
  | IndexError, IndexError => true
  | TypeError, TypeError => true
  | ValueError, ValueError => true
  | ZeroDivisionError, ZeroDivisionError => true
  | SystemExit m, SystemExit n => Z.eqb m n
  | _, _ => false
  end.

Inductive result (A : Type) : Type :=
| Ok (a : A)
| Raise (e : exn).

Arguments Ok {A} a.
Arguments Raise {A} e.


(** ** State and exceptions

    A statement run in state [s] ends normally with a value or raises; in
    both cases the mutations made so far stay. *)
Definition M (S A : Type) : Type := S -> result A * S.

Definition ret {S A} (a : A) : M S A := fun s => (Ok a, s).

Definition bind {S A B} (c : M S A) (k : A -> M S B) : M S B :=
  fun s => match c s with
           | (Ok a, s') => k a s'
           | (Raise e, s') => (Raise e, s')
           end.

Definition raise {S A} (e : exn) : M S A := fun s => (Raise e, s).

Definition get {S} : M S S := fun s => (Ok s, s).

Definition gets {S A} (f : S -> A) : M S A := fun s => (Ok (f s), s).

Definition modify {S} (f : S -> S) : M S unit := fun s => (Ok tt, f s).

(** Lift a pure computation that may raise. *)
Definition lift {S A} (r : result A) : M S A := fun s => (r, s).

(** [try: body except RequestException: handler]. *)
Definition try_except_request {S A} (body handler : M S A) : M S A :=
  fun s => match body s with
           | (Raise RequestException, s') => handler s'
           | other => other
           end.

(** [for x in xs: body x]. *)
Fixpoint for_each {S A} (xs : list A) (body : A -> M S unit) : M S unit :=
  match xs with
  | [] => ret tt
  | x :: xs' => bind (body x) (fun _ => for_each xs' body)
  end.

Declare Scope py_scope.
Delimit Scope py_scope with py.

Notation "x <- c ;; k" := (bind c (fun x => k))
  (at level 61, c at next level, right associativity) : py_scope.
Notation "c ;; k" := (bind c (fun _ => k))
  (at level 61, right associativity) : py_scope.

(** ** Logging *)

Inductive level : Type := DEBUG | INFO | WARNING | ERROR.

Definition level_eqb (a b : level) : bool :=
  match a, b with
  | DEBUG, DEBUG | INFO, INFO | WARNING, WARNING | ERROR, ERROR => true
  | _, _ => false
  end.

Definition record : Type := (level * string)%type.

(** ** Floats

    Python's [float] is IEEE 754 binary64, which is what [PrimFloat.float]
    is.  [+ - *] and [abs] are the IEEE operations; [/] raises on a zero
    divisor instead of returning an infinity or a NaN. *)

Definition float_div (x y : float) : result float :=
  if PrimFloat.eqb y 0%float then Raise ZeroDivisionError
  else Ok (PrimFloat.div x y).

(** [x - y] on attributes that hold a float or [None]. *)
Definition py_sub (x y : option float) : result float :=
  match x, y with
  | Some a, Some b => Ok (PrimFloat.sub a b)
  | _, _ => Raise TypeError
  end.

(** [abs(x)] on an attribute that holds a float or [None]. *)
Definition py_abs (x : option float) : result float :=
  match x with
  | Some a => Ok (PrimFloat.abs a)
  | None => Raise TypeError
  end.

Definition is_finite (x : float) : bool :=
  match Prim2SF x with
  | S754_zero _ | S754_finite _ _ _ => true
  | S754_infinity _ | S754_nan => false
  end.

(** ** ["{:.2f}".format(x)]

    The conversion is exact: the binary value [m * 2^e] is multiplied by
    100 and rounded to the nearest integer, ties to even; the result is
    printed with the last two digits after the point.  The sign is printed
    from the sign bit, so a negative value that rounds to zero prints as
    [-0.00]. *)

Definition round_half_even (n d : Z) : Z :=
  let q := n / d in
  let r := n mod d in
  if 2 * r <? d then q
  else if d <? 2 * r then q + 1
  else if Z.even q then q else q + 1.

(** [|x| * 100] rounded, for [|x| = m * 2^e]. *)
Definition hundredths (m : positive) (e : Z) : Z :=
  if 0 <=? e then Z.pos m * 100 * 2 ^ e
  else round_half_even (Z.pos m * 100) (2 ^ (- e)).

Definition digits (n : Z) : string :=
  NilZero.string_of_uint (N.to_uint (Z.to_N n)).

Definition digit (n : Z) : ascii :=
  ascii_of_nat (48 + Z.to_nat n).

(** The digits of [h / 100], a point, and the two digits of [h mod 100]. *)
Definition fixed2 (h : Z) : string :=
  digits (h / 100) ++ "." ++
  String (digit (h mod 100 / 10)) (String (digit (h mod 10)) "").

Definition sign_prefix (s : bool) : string := if s then "-" else "".

Definition format_2f (x : float) : string :=
  match Prim2SF x with
  | S754_nan => "nan"
  | S754_infinity s => sign_prefix s ++ "inf"
  | S754_zero s => sign_prefix s ++ "0.00"
  | S754_finite s m e => sign_prefix s ++ fixed2 (hundredths m e)
  end.

(** *** The shape of a two-decimal rendering *)

Definition is_digit (c : ascii) : bool :=
  let n := nat_of_ascii c in (48 <=? n)%nat && (n <=? 57)%nat.

Fixpoint all_digits (s : string) : bool :=
  match s with
  | EmptyString => true
  | String c s' => is_digit c && all_digits s'
  end.

(** The digits before the first point of [s], and what follows the point. *)
Fixpoint split_point (s : string) : string * option string :=
  match s with
  | EmptyString => (EmptyString, None)
  | String c s' =>
      if Ascii.eqb c "." then (EmptyString, Some s')
      else let (a, b) := split_point s' in (String c a, b)
  end.

(** At least one digit, a point, exactly two digits. *)
Definition unsigned_two_decimals (s : string) : bool :=
  match split_point s with
  | (ip, Some fp) =>
      negb (String.length ip =? 0)%nat && all_digits ip &&
      (String.length fp =? 2)%nat && all_digits fp
  | (_, None) => false
  end.

(** An optional minus sign before it. *)
Definition two_decimals (s : string) : bool :=
  match s with
  | String c s' =>
      if Ascii.eqb c "-" then unsigned_two_decimals s'
      else unsigned_two_decimals s
  | EmptyString => false
  end.

(** ** JSON values

    What [requests.get(url).json()] returns, and every value an attribute
    of a ticker can hold.  JSON numbers are carried as floats.  The keys of
    a [VDict] are distinct, as in the [dict] that [json()] builds. *)
Inductive value : Type :=
| VNone
| VBool (b : bool)
| VFloat (f : float)
| VStr (s : string)
| VList (l : list value)
| VDict (d : list (string * value)).

Fixpoint assoc (k : string) (d : list (string * value)) : option value :=
  match d with
  | [] => None
  | (k', v) :: d' => if String.eqb k k' then Some v else assoc k d'
  end.

(** [v[k]] for a string key [k]. *)
Definition getitem_key (v : value) (k : string) : result value :=
  match v with
  | VDict d => match assoc k d with Some x => Ok x | None => Raise KeyError end
  | _ => Raise TypeError
  end.

(** [v[0]]. *)
Definition getitem_0 (v : value) : result value :=
  match v with
  | VList (x :: _) => Ok x
  | VList [] => Raise IndexError
  | VStr (String c _) => Ok (VStr (String c EmptyString))
  | VStr EmptyString => Raise IndexError
  | VDict _ => Raise KeyError
  | _ => Raise TypeError
  end.

(** [len(v)]. *)
Definition py_len (v : value) : result nat :=
  match v with
  | VList l => Ok (List.length l)
  | VDict d => Ok (List.length d)
  | VStr s => Ok (String.length s)
  | _ => Raise TypeError
  end.

(** [v == s] for a string [s]. *)
Definition eq_str (v : value) (s : string) : bool :=
  match v with
  | VStr s' => String.eqb s' s
  | _ => false
  end.

Section Float.

(** [float(s)] for a string [s]: Python's parser of float literals, [None]
    where it raises [ValueError]. *)
Variable str_to_float : string -> option float.

(** [float(v)]. *)
Definition py_float (v : value) : result float :=
  match v with
  | VFloat f => Ok f
  | VBool b => Ok (if b then 1%float else 0%float)
  | VStr s => match str_to_float s with
              | Some f => Ok f
              | None => Raise ValueError
              end
  | _ => Raise TypeError
  end.

End Float.

(** [float(s)] on plain decimal literals: an optional minus sign, digits,
    and optionally a point and more digits, of at most 15 digits in all.
    The quotient of two integers below [2^53] is rounded once, as [float]
    rounds the literal.  Other strings are outside this parser; the methods
    below are stated for any parser. *)
Fixpoint digits_value (s : string) (acc : Z) : option Z :=
  match s with
  | EmptyString => Some acc
  | String c s' =>
      if is_digit c
      then digits_value s' (10 * acc + Z.of_nat (nat_of_ascii c) - 48)
      else None
  end.

Definition float_of_Z (n : Z) : float :=
  match n with
  | Z.pos m => SF2Prim (S754_finite false m 0)
  | _ => 0%float
  end.

Definition decimal_literal (s : string) : option float :=
  let (neg, body) :=
    match s with
    | String "-" s' => (true, s')
    | _ => (false, s)
    end in
  let (ip, fp) := split_point body in
  let fp := match fp with Some f => f | None => EmptyString end in
  if ((String.length ip =? 0)%nat || (15 <? String.length ip + String.length fp)%nat)
  then None
  else
    match digits_value (ip ++ fp) 0 with
    | Some m =>
        let x := PrimFloat.div (float_of_Z m)
                               (float_of_Z (10 ^ Z.of_nat (String.length fp))) in
        Some (if neg then PrimFloat.opp x else x)
    | None => None
    end.

(** ** Dates and times of day *)

Record date : Type := mkDate { year : Z; month : Z; day : Z }.

Definition is_leap (y : Z) : bool :=
  (y mod 4 =? 0) && (negb (y mod 100 =? 0) || (y mod 400 =? 0)).

Definition days_before_year (y : Z) : Z :=
  let y' := y - 1 in y' * 365 + y' / 4 - y' / 100 + y' / 400.

Definition days_in_months : list Z :=
  [31; 28; 31; 30; 31; 30; 31; 31; 30; 31; 30; 31].

Definition days_before_month (y m : Z) : Z :=
  fold_right Z.add 0 (firstn (Z.to_nat (m - 1)) days_in_months)
  + (if (2 <? m) && is_leap y then 1 else 0).

(** [date.toordinal()]: 1 is the first of January of year 1, a Monday. *)
Definition toordinal (d : date) : Z :=
  days_before_year (year d) + days_before_month (year d) (month d) + day d.

(** [date.weekday()]: Monday is 0, Saturday is 5, Sunday is 6. *)
Definition weekday (d : date) : Z := (toordinal d + 6) mod 7.

(** A wall-clock time of day. *)
Record time_of_day : Type :=
  mkTime { hour : Z; minute : Z; second : Z; microsecond : Z }.

Definition microseconds (t : time_of_day) : Z :=
  ((hour t * 60 + minute t) * 60 + second t) * 1000000 + microsecond t.

(** One instant as the code reads it: [time.time()], [datetime.today()]
    in the machine's time zone, and the time of day of
    [datetime.now(timezone("US/Eastern"))]. *)
Record instant : Type :=
  mkInstant { epoch : PrimFloat.float; today : date; eastern : time_of_day }.

End Py.

(* ================================================================== *)
(** * [data/ticker.py]: class [Ticker] *)
(* ================================================================== *)

Module Ticker.

Import Py.
Local Open Scope py_scope.

(** ** The provider and the world *)

(** The URLs of [constants], by the attributes formatted into them. *)
Inductive request : Type :=
| SYMBOL_SEARCH_URL (ticker : string)
| STOCK_NAME_URL (ticker country : string)
| CRYPTO_NAME_URL (ticker : string)
| PREVIOUS_DAY_CLOSE_PRICE_URL (ticker : string) (api_key : option string)
| CURRENT_PRICE_URL (ticker : string) (api_key : option string).

(** What [requests.get(url).json()] does: it returns the decoded body or
    raises. *)
Inductive reply : Type :=
| Response (body : value)
| Fails (e : exn).

(** The world outside the object: the provider, which answers the [n]-th
    request made; the requests made so far, oldest first; the log; the
    clock. *)
Record world : Type := mkWorld {
  net   : nat -> request -> reply;
  calls : list request;
  logs  : list record;
  clock : instant
}.

Definition add_call (r : request) (w : world) : world :=
  mkWorld (net w) (calls w ++ [r]) (logs w) (clock w).

Definition add_log (l : record) (w : world) : world :=
  mkWorld (net w) (calls w) (logs w ++ [l]) (clock w).

Definition set_clock (i : instant) (w : world) : world :=
  mkWorld (net w) (calls w) (logs w) i.

(** ** The object *)

(** The attributes of a [Ticker].  [ticker_valid_] and [api_key_valid_] are
    the attributes that [__init__] stores under the names of the two
    methods.  The prices hold a float or [None], the derived fields a
    string or [None]. *)
Record t : Type := mkTicker {
  api_key              : option string;
  update_rate          : float;
  country              : string;
  ticker               : string;
  name                 : value;
  prev_day_close_price : option float;
  current_price        : option float;
  value_change         : option string;
  percentage_change    : option string;
  ticker_valid_        : option bool;
  api_key_valid_       : option bool;
  data_initialized     : bool;
  last_updated         : float
}.

Definition set_name (v : value) (o : t) : t :=
  mkTicker (api_key o) (update_rate o) (country o) (ticker o) v
    (prev_day_close_price o) (current_price o) (value_change o)
    (percentage_change o) (ticker_valid_ o) (api_key_valid_ o)
    (data_initialized o) (last_updated o).

Definition set_prev_day_close_price (v : option float) (o : t) : t :=
  mkTicker (api_key o) (update_rate o) (country o) (ticker o) (name o)
    v (current_price o) (value_change o)
    (percentage_change o) (ticker_valid_ o) (api_key_valid_ o)
    (data_initialized o) (last_updated o).

Definition set_current_price (v : option float) (o : t) : t :=
  mkTicker (api_key o) (update_rate o) (country o) (ticker o) (name o)
    (prev_day_close_price o) v (value_change o)
    (percentage_change o) (ticker_valid_ o) (api_key_valid_ o)
    (data_initialized o) (last_updated o).

Definition set_value_change (v : option string) (o : t) : t :=
  mkTicker (api_key o) (update_rate o) (country o) (ticker o) (name o)
    (prev_day_close_price o) (current_price o) v
    (percentage_change o) (ticker_valid_ o) (api_key_valid_ o)
    (data_initialized o) (last_updated o).

Definition set_percentage_change (v : option string) (o : t) : t :=
  mkTicker (api_key o) (update_rate o) (country o) (ticker o) (name o)
    (prev_day_close_price o) (current_price o) (value_change o)
    v (ticker_valid_ o) (api_key_valid_ o)
    (data_initialized o) (last_updated o).

Definition set_ticker_valid (v : option bool) (o : t) : t :=
  mkTicker (api_key o) (update_rate o) (country o) (ticker o) (name o)
    (prev_day_close_price o) (current_price o) (value_change o)
    (percentage_change o) v (api_key_valid_ o)
    (data_initialized o) (last_updated o).

Definition set_api_key_valid (v : option bool) (o : t) : t :=
  mkTicker (api_key o) (update_rate o) (country o) (ticker o) (name o)
    (prev_day_close_price o) (current_price o) (value_change o)
    (percentage_change o) (ticker_valid_ o) v
    (data_initialized o) (last_updated o).

Definition set_data_initialized (v : bool) (o : t) : t :=
  mkTicker (api_key o) (update_rate o) (country o) (ticker o) (name o)
    (prev_day_close_price o) (current_price o) (value_change o)
    (percentage_change o) (ticker_valid_ o) (api_key_valid_ o)
    v (last_updated o).

Definition set_last_updated (v : float) (o : t) : t :=
  mkTicker (api_key o) (update_rate o) (country o) (ticker o) (name o)
    (prev_day_close_price o) (current_price o) (value_change o)
    (percentage_change o) (ticker_valid_ o) (api_key_valid_ o)
    (data_initialized o) v.

(** A method runs on [self] and the world. *)
Record state : Type := mkState { self : t; env : world }.

Definition on_self (f : t -> t) : M state unit :=
  modify (fun s => mkState (f (self s)) (env s)).

Definition on_env (f : world -> world) : M state unit :=
  modify (fun s => mkState (self s) (f (env s))).

Definition attr {A} (f : t -> A) : M state A := gets (fun s => f (self s)).

Definition logging (l : level) (msg : string) : M state unit :=
  on_env (add_log (l, msg)).

(** [requests.get(url).json()]: the request is recorded, then the provider's
    reply decides. *)
Definition requests_get_json (url : request) : M state value :=
  fun s =>
    let w := env s in
    let s' := mkState (self s) (add_call url w) in
    match net w (List.length (calls w)) url with
    | Response body => (Ok body, s')
    | Fails e => (Raise e, s')
    end.

(** [time.time()]. *)
Definition time_time : M state float := gets (fun s => epoch (clock (env s))).

(** [sys.exit(code)]. *)
Definition sys_exit {A} (code : Z) : M state A := raise (SystemExit code).

(** ** The methods *)

(** [a < b] on two times of the same day, field by field as [datetime]
    compares. *)
Definition time_ltb (a b : time_of_day) : bool :=
  (hour a <? hour b) || (hour a =? hour b) &&
  ((minute a <? minute b) || (minute a =? minute b) &&
   ((second a <? second b) || (second a =? second b) &&
    (microsecond a <? microsecond b))).

(** [weekend]: the weekday number of [datetime.today()] is compared with 5. *)
Definition weekend : M state bool :=
  now <- gets (fun s => clock (env s)) ;;
  let week_day_no := weekday (today now) in
  ret (5 <? week_day_no).

(** [after_hours]: the Eastern time of day against 09:30 and 16:00 of the
    same day. *)
Definition after_hours : M state bool :=
  now <- gets (fun s => clock (env s)) ;;
  let current_time := eastern now in
  let open_market := mkTime 9 30 0 0 in
  let close_market := mkTime 16 0 0 0 in
  ret (time_ltb current_time open_market || time_ltb close_market current_time).

Definition should_update : M state bool :=
  we <- weekend ;;
  ah <- (if negb we then after_hours else ret true) ;;
  if negb we && negb ah then
    current_time <- time_time ;;
    last <- attr last_updated ;;
    rate <- attr update_rate ;;
    let time_delta := PrimFloat.sub current_time last in
    ret (PrimFloat.leb rate time_delta)
  else ret false.

Definition api_key_valid : M state bool :=
  key <- attr api_key ;;
  if match key with
     | None => true
     | Some k => (String.length k <? 32)%nat
     end
  then
    logging ERROR "API key is not valid. Please verify your config.json file." ;;
    logging ERROR
      "If you do not have an API key, you can get a free key at twelvedata.com/register" ;;
    sys_exit 1
  else ret true.

Definition ticker_valid : M state (option bool) :=
  tk <- attr ticker ;;
  logging DEBUG ("Verifying validity of ticker: " ++ tk) ;;
  try_except_request
    (response <- requests_get_json (SYMBOL_SEARCH_URL tk) ;;
     data <- lift (getitem_key response "data") ;;
     first <- lift (getitem_0 data) ;;
     symbol <- lift (getitem_key first "symbol") ;;
     if eq_str symbol tk then ret (Some true)
     else
       logging ERROR ("Ticker: " ++ tk ++ " does not exist.") ;;
       sys_exit 1)
    (logging ERROR ("Failed to verify validity of ticker: " ++ tk) ;;
     ret None).

(** [response["data"][0]["symbol"]], the symbol [ticker_valid] compares. *)
Definition canonical_symbol (response : value) : result value :=
  match getitem_key response "data" with
  | Ok data =>
      match getitem_0 data with
      | Ok first => getitem_key first "symbol"
      | Raise e => Raise e
      end
  | Raise e => Raise e
  end.

Definition get_crypto_name : M state value :=
  tk <- attr ticker ;;
  logging DEBUG ("Fetching name for " ++ tk) ;;
  try_except_request
    (response <- requests_get_json (CRYPTO_NAME_URL tk) ;;
     data <- lift (getitem_key response "data") ;;
     first <- lift (getitem_0 data) ;;
     full_name <- lift (getitem_key first "currency_base") ;;
     ret full_name)
    (logging ERROR ("Failed to fetch name for " ++ tk) ;;
     ret VNone).

Definition get_stock_name : M state value :=
  tk <- attr ticker ;;
  ctry <- attr country ;;
  logging DEBUG ("Fetching name for " ++ tk) ;;
  try_except_request
    (response <- requests_get_json (STOCK_NAME_URL tk ctry) ;;
     data <- lift (getitem_key response "data") ;;
     n <- lift (py_len data) ;;
     if (0 <? n)%nat then
       data' <- lift (getitem_key response "data") ;;
       first <- lift (getitem_0 data') ;;
       lift (getitem_key first "name")
     else
       logging DEBUG ("Checking if " ++ tk ++ " is a cryptocurrency") ;;
       get_crypto_name)
    (logging ERROR ("Failed to fetch name for " ++ tk) ;;
     ret VNone).

Definition get_value_change : M state string :=
  logging DEBUG "Calculating value change" ;;
  cur <- attr current_price ;;
  prev <- attr prev_day_close_price ;;
  d <- lift (py_sub cur prev) ;;
  ret (format_2f d).

Definition get_percentage_change : M state string :=
  logging DEBUG "Calculating percentage change" ;;
  cur <- attr current_price ;;
  prev <- attr prev_day_close_price ;;
  d <- lift (py_sub cur prev) ;;
  a <- lift (py_abs prev) ;;
  q <- lift (float_div d a) ;;
  ret (format_2f (PrimFloat.mul 100 q) ++ "%").

(** The two derived fields for a price [p] and a close [c]. *)
Definition derived (p c : float) (o : t) : t :=
  set_percentage_change
    (Some (format_2f (PrimFloat.mul 100
                        (PrimFloat.div (PrimFloat.sub p c) (PrimFloat.abs c)))
           ++ "%"))
    (set_value_change (Some (format_2f (PrimFloat.sub p c))) o).

Section Methods.

(** Python's [float] on strings. *)
Variable str_to_float : string -> option float.

Definition get_previous_day_close_price : M state (option float) :=
  tk <- attr ticker ;;
  key <- attr api_key ;;
  logging DEBUG ("Fetching previous day' close price for " ++ tk) ;;
  try_except_request
    (response <- requests_get_json (PREVIOUS_DAY_CLOSE_PRICE_URL tk key) ;;
     values <- lift (getitem_key response "values") ;;
     first <- lift (getitem_0 values) ;;
     previous_close <- lift (getitem_key first "previous_close") ;;
     close_price <- lift (py_float str_to_float previous_close) ;;
     ret (Some close_price))
    (logging ERROR ("Unable to fetch previous day' close price for " ++ tk) ;;
     ret None).

Definition get_current_price : M state (option float) :=
  tk <- attr ticker ;;
  key <- attr api_key ;;
  logging DEBUG ("Fetching current price for " ++ tk) ;;
  try_except_request
    (response <- requests_get_json (CURRENT_PRICE_URL tk key) ;;
     p <- lift (getitem_key response "price") ;;
     price <- lift (py_float str_to_float p) ;;
     ret (Some price))
    (logging ERROR ("Unable to fetch current price for " ++ tk) ;;
     ret None).

Definition setup_data : M state unit :=
  logging DEBUG "Fetching initial data..." ;;
  n <- get_stock_name ;;
  on_self (set_name n) ;;
  p <- get_previous_day_close_price ;;
  on_self (set_prev_day_close_price p) ;;
  c <- get_current_price ;;
  on_self (set_current_price c) ;;
  v <- get_value_change ;;
  on_self (set_value_change (Some v)) ;;
  pc <- get_percentage_change ;;
  on_self (set_percentage_change (Some pc)).

Definition update_data (force : bool) : M state unit :=
  initialized <- attr data_initialized ;;
  (if negb initialized then
     setup_data ;;
     on_self (set_data_initialized true)
   else ret tt) ;;
  go <- (if force then ret true else should_update) ;;
  if go then
    logging DEBUG "Fetching new data..." ;;
    now <- time_time ;;
    on_self (set_last_updated now) ;;
    c <- get_current_price ;;
    on_self (set_current_price c) ;;
    v <- get_value_change ;;
    on_self (set_value_change (Some v)) ;;
    pc <- get_percentage_change ;;
    on_self (set_percentage_change (Some pc))
  else ret tt.

(** The statements of [update_data] under [if force is True or
    self.should_update()]. *)
Definition fetch_new_data : M state unit :=
  logging DEBUG "Fetching new data..." ;;
  now <- time_time ;;
  on_self (set_last_updated now) ;;
  c <- get_current_price ;;
  on_self (set_current_price c) ;;
  v <- get_value_change ;;
  on_self (set_value_change (Some v)) ;;
  pc <- get_percentage_change ;;
  on_self (set_percentage_change (Some pc)).

(** The object as [__init__] finds it: the four arguments, and nothing
    else set yet. *)
Definition blank (api_key : option string) (ticker country : string)
           (update_rate : float) : t :=
  mkTicker api_key update_rate country ticker
           VNone None None None None None None false 0%float.

(** [__init__], after the plain attribute assignments of [blank]. *)
Definition __init__ : M state unit :=
  v <- ticker_valid ;;
  on_self (set_ticker_valid v) ;;
  k <- api_key_valid ;;
  on_self (set_api_key_valid (Some k)) ;;
  on_self (set_data_initialized false) ;;
  now <- time_time ;;
  on_self (set_last_updated now) ;;
  update_data false.

(** [Ticker(api_key, ticker, country, update_rate)]: the new object, or
    the exception that left [__init__]. *)
Definition new (api_key : option string) (ticker country : string)
           (update_rate : float) (w : world) : result t * world :=
  match __init__ (mkState (blank api_key ticker country update_rate) w) with
  | (Ok _, s) => (Ok (self s), env s)
  | (Raise e, s) => (Raise e, env s)
  end.

End Methods.

End Ticker.

(* ================================================================== *)
(** * [api/data.py]: class [Data] *)
(* ================================================================== *)

(** The fields of [MatrixConfig] that [Data] reads. *)
Module MatrixConfig.

Record t : Type := mk {
  stocks       : list string;
  cryptos      : list string;
  forex        : list string;
  currency     : string;
  update_rate  : float;
  clock_format : string;
  date_format  : string
}.

End MatrixConfig.

(** What [Data] reads and writes of a [Stock], [Crypto] or [Forex]
    object. *)
Module Instrument.

Record t : Type := mk {
  symbol                 : string;
  valid                  : bool;
  currency_exchange_rate : float
}.

Definition set_currency_exchange_rate (r : float) (i : t) : t :=
  mk (symbol i) (valid i) r.

End Instrument.

Module Data.

Import Py.
Local Open Scope py_scope.

Inductive Status : Type := SUCCESS | FAIL.

(** ** The object, the world and the pool *)

Record t : Type := mkData {
  config                 : MatrixConfig.t;
  date                   : option string;
  time                   : option string;
  cryptos                : list Instrument.t;
  stocks                 : list Instrument.t;
  forex                  : list Instrument.t;
  currency               : string;
  currency_exchange_rate : float;
  valid_tickers          : Z;
  status                 : Status;
  last_updated           : option float
}.

Definition set_date (v : option string) (d : t) : t :=
  mkData (config d) v (time d) (cryptos d) (stocks d) (forex d) (currency d)
         (currency_exchange_rate d) (valid_tickers d) (status d) (last_updated d).

Definition set_time (v : option string) (d : t) : t :=
  mkData (config d) (date d) v (cryptos d) (stocks d) (forex d) (currency d)
         (currency_exchange_rate d) (valid_tickers d) (status d) (last_updated d).

Definition set_cryptos (v : list Instrument.t) (d : t) : t :=
  mkData (config d) (date d) (time d) v (stocks d) (forex d) (currency d)
         (currency_exchange_rate d) (valid_tickers d) (status d) (last_updated d).

Definition set_stocks (v : list Instrument.t) (d : t) : t :=
  mkData (config d) (date d) (time d) (cryptos d) v (forex d) (currency d)
         (currency_exchange_rate d) (valid_tickers d) (status d) (last_updated d).

Definition set_forex (v : list Instrument.t) (d : t) : t :=
  mkData (config d) (date d) (time d) (cryptos d) (stocks d) v (currency d)
         (currency_exchange_rate d) (valid_tickers d) (status d) (last_updated d).

Definition set_currency (v : string) (d : t) : t :=
  mkData (config d) (date d) (time d) (cryptos d) (stocks d) (forex d) v
         (currency_exchange_rate d) (valid_tickers d) (status d) (last_updated d).

Definition set_currency_exchange_rate (v : float) (d : t) : t :=
  mkData (config d) (date d) (time d) (cryptos d) (stocks d) (forex d) (currency d)
         v (valid_tickers d) (status d) (last_updated d).

Definition set_valid_tickers (v : Z) (d : t) : t :=
  mkData (config d) (date d) (time d) (cryptos d) (stocks d) (forex d) (currency d)
         (currency_exchange_rate d) v (status d) (last_updated d).

Definition set_last_updated (v : option float) (d : t) : t :=
  mkData (config d) (date d) (time d) (cryptos d) (stocks d) (forex d) (currency d)
         (currency_exchange_rate d) (valid_tickers d) (status d) v.

(** The object as the generated [__init__] leaves it for [__post_init__]:
    the configuration and the field defaults ([DEFAULT_CURRENCY] is the
    argument). *)
Definition defaults (cfg : MatrixConfig.t) (DEFAULT_CURRENCY : string) : t :=
  mkData cfg None None [] [] [] DEFAULT_CURRENCY 1%float 0 SUCCESS None.

(** The world: the exchange-rate provider, which answers the [n]-th call of
    [fetch_exchange_rate]; those calls so far, oldest first, each with the
    time it was made at and its argument; the log; [time.time()];
    [time.strftime]; [multitasking.cpu_count()]. *)
Record world : Type := mkWorld {
  rate_provider : nat -> string -> float;
  rate_calls    : list (float * string);
  logs          : list record;
  now           : float;
  strftime      : string -> string;
  cpu_count     : Z
}.

Definition add_rate_call (c : float * string) (w : world) : world :=
  mkWorld (rate_provider w) (rate_calls w ++ [c]) (logs w) (now w)
          (strftime w) (cpu_count w).

Definition add_log (l : record) (w : world) : world :=
  mkWorld (rate_provider w) (rate_calls w) (logs w ++ [l]) (now w)
          (strftime w) (cpu_count w).

Definition set_now (x : float) (w : world) : world :=
  mkWorld (rate_provider w) (rate_calls w) (logs w) x
          (strftime w) (cpu_count w).

(** A call of a method decorated with [multitasking.task], waiting in the
    pool or running on a worker. *)
Inductive task : Type :=
| fetch_stock_task (symbol currency : string) (exchange_rate : float)
| fetch_crypto_task (symbol currency : string) (exchange_rate : float)
| fetch_forex_task (symbol : string)
| update_ticker_task (ticker : Instrument.t).

(** The object, the world, the tasks submitted and not yet finished, and
    the bound given to [multitasking.set_max_threads]. *)
Record system : Type := mkSystem {
  this        : t;
  env         : world;
  pool        : list task;
  max_threads : Z
}.

Definition on_this (f : t -> t) : M system unit :=
  modify (fun s => mkSystem (f (this s)) (env s) (pool s) (max_threads s)).

Definition on_env (f : world -> world) : M system unit :=
  modify (fun s => mkSystem (this s) (f (env s)) (pool s) (max_threads s)).

Definition field {A} (f : t -> A) : M system A := gets (fun s => f (this s)).

Definition logging (l : level) (msg : string) : M system unit :=
  on_env (add_log (l, msg)).

Definition time_time : M system float := gets (fun s => now (env s)).

Definition time_strftime (fmt : string) : M system string :=
  gets (fun s => strftime (env s) fmt).

(** Calling a decorated method hands the call to the pool and returns. *)
Definition submit (k : task) : M system unit :=
  modify (fun s => mkSystem (this s) (env s) (pool s ++ [k]) (max_threads s)).

Definition set_max_threads (n : Z) : M system unit :=
  modify (fun s => mkSystem (this s) (env s) (pool s) n).

(** [fetch_exchange_rate(currency)] of [util.utils]: one request to the
    rate provider. *)
Definition fetch_exchange_rate (currency : string) : M system float :=
  fun s =>
    let w := env s in
    (Ok (rate_provider w (List.length (rate_calls w)) currency),
     mkSystem (this s) (add_rate_call (now w, currency) w) (pool s)
              (max_threads s)).

(** ** Methods run by the caller *)

Definition get_time : M system string :=
  cfg <- field config ;;
  time_strftime (MatrixConfig.clock_format cfg).

Definition get_date : M system string :=
  cfg <- field config ;;
  time_strftime (MatrixConfig.date_format cfg).

Definition update_clock : M system unit :=
  d <- get_date ;;
  on_this (set_date (Some d)) ;;
  tm <- get_time ;;
  on_this (set_time (Some tm)).

Definition should_update : M system bool :=
  t0 <- time_time ;;
  last <- field last_updated ;;
  cfg <- field config ;;
  delta <- lift (py_sub (Some t0) last) ;;
  ret (PrimFloat.leb (MatrixConfig.update_rate cfg) delta).

(** [update]: every instrument of the three sequences gets the current
    rate, and one [update_ticker] call goes to the pool for it. *)
Definition update : M system Status :=
  logging DEBUG "Checking for update" ;;
  t0 <- time_time ;;
  last <- field last_updated ;;
  delta <- lift (py_sub (Some t0) last) ;;
  (if PrimFloat.leb 3600 delta then
     cur <- field currency ;;
     r <- fetch_exchange_rate cur ;;
     on_this (set_currency_exchange_rate r)
   else ret tt) ;;
  rate <- field currency_exchange_rate ;;
  on_this (fun d =>
    set_forex (map (Instrument.set_currency_exchange_rate rate) (forex d))
   (set_cryptos (map (Instrument.set_currency_exchange_rate rate) (cryptos d))
   (set_stocks (map (Instrument.set_currency_exchange_rate rate) (stocks d)) d))) ;;
  tickers <- gets (fun s => (stocks (this s) ++ cryptos (this s) ++ forex (this s))%list) ;;
  for_each tickers (fun ticker => submit (update_ticker_task ticker)) ;;
  t1 <- time_time ;;
  on_this (set_last_updated (Some t1)) ;;
  ret SUCCESS.

(** The three loops of [initialize]: one task per configured symbol. *)
Definition initialize_dispatch : M system unit :=
  logging INFO "Initializing data..." ;;
  cfg <- field config ;;
  cur <- field currency ;;
  rate <- field currency_exchange_rate ;;
  for_each (MatrixConfig.stocks cfg)
           (fun stock => submit (fetch_stock_task stock cur rate)) ;;
  for_each (MatrixConfig.cryptos cfg)
           (fun crypto => submit (fetch_crypto_task crypto cur rate)) ;;
  for_each (MatrixConfig.forex cfg)
           (fun fx => submit (fetch_forex_task fx)).

(** The condition of the [while] loop of [initialize]. *)
Definition initialize_waiting (d : t) : bool :=
  Z.of_nat (List.length (stocks d ++ cryptos d ++ forex d)%list) <? valid_tickers d.

(** What [initialize] does once the loop is left. *)
Definition initialize_return : M system Status :=
  d <- get_date ;;
  on_this (set_date (Some d)) ;;
  tm <- get_time ;;
  on_this (set_time (Some tm)) ;;
  ret SUCCESS.

(** [__post_init__] up to the loop of [initialize]. *)
Definition __post_init__ : M system unit :=
  cfg <- field config ;;
  on_this (set_currency (MatrixConfig.currency cfg)) ;;
  cur <- field currency ;;
  r <- fetch_exchange_rate cur ;;
  on_this (set_currency_exchange_rate r) ;;
  on_this (set_valid_tickers
             (Z.of_nat (List.length (MatrixConfig.stocks cfg ++
                                     MatrixConfig.cryptos cfg ++
                                     MatrixConfig.forex cfg)%list))) ;;
  t0 <- time_time ;;
  on_this (set_last_updated (Some t0)) ;;
  n <- field valid_tickers ;;
  cpus <- gets (fun s => cpu_count (env s)) ;;
  set_max_threads (Z.min n (cpus * 2)) ;;
  initialize_dispatch.

(** ** Methods run by the workers *)

Section Workers.

(** The constructors of [data.stock], [data.crypto] and [data.forex]:
    each returns the object built, valid or not, or raises. *)
Variable Stock Crypto : string -> string -> float -> result Instrument.t.
Variable Forex : string -> result Instrument.t.

Definition fetch_stock (symbol currency : string) (exchange_rate : float)
  : M system unit :=
  stock <- lift (Stock symbol currency exchange_rate) ;;
  if Instrument.valid stock then
    on_this (fun d => set_stocks (stocks d ++ [stock]) d)
  else
    on_this (fun d => set_valid_tickers (valid_tickers d - 1) d) ;;
    logging WARNING
      ("Stock: " ++ Instrument.symbol stock ++ " may not be valid.").

Definition fetch_crypto (symbol currency : string) (exchange_rate : float)
  : M system unit :=
  crypto <- lift (Crypto symbol currency exchange_rate) ;;
  if Instrument.valid crypto then
    on_this (fun d => set_cryptos (cryptos d ++ [crypto]) d)
  else
    on_this (fun d => set_valid_tickers (valid_tickers d - 1) d) ;;
    logging WARNING
      ("Crypto: " ++ Instrument.symbol crypto ++ " may not be valid.").

Definition fetch_forex (symbol : string) : M system unit :=
  fx <- lift (Forex symbol) ;;
  if Instrument.valid fx then
    on_this (fun d => set_forex (forex d ++ [fx]) d)
  else
    on_this (fun d => set_valid_tickers (valid_tickers d - 1) d) ;;
    logging WARNING
      ("Forex: " ++ Instrument.symbol fx ++ " may not be valid.").

(** [update_ticker]: [ticker.update()] works on the instrument alone; the
    sequences and counters of [Data] are not its business. *)
Definition update_ticker (ticker : Instrument.t) : M system unit := ret tt.

Definition run_task (k : task) : M system unit :=
  match k with
  | fetch_stock_task s c r => fetch_stock s c r
  | fetch_crypto_task s c r => fetch_crypto s c r
  | fetch_forex_task s => fetch_forex s
  | update_ticker_task i => update_ticker i
  end.

(** ** The caller and the workers together

    The caller of [initialize] is in its loop or has returned.  Two things
    can happen next: a task of the pool finishes, having run as one step
    (an exception ends the worker and nothing else), or the caller wakes
    up and tests the loop condition. *)

Inductive caller : Type := Waiting | Returned (s : Status).

Record machine : Type := mkMachine { sys : system; main : caller }.

Inductive event : Type :=
| Complete (n : nat)
| Poll.

Fixpoint remove_nth {A} (n : nat) (l : list A) : list A :=
  match n, l with
  | _, [] => []
  | O, _ :: l' => l'
  | S n', x :: l' => x :: remove_nth n' l'
  end.

Definition step (e : event) (m : machine) : option machine :=
  match e with
  | Complete n =>
      match nth_error (pool (sys m)) n with
      | Some k =>
          let s := sys m in
          let s' := mkSystem (this s) (env s) (remove_nth n (pool s))
                             (max_threads s) in
          Some (mkMachine (snd (run_task k s')) (main m))
      | None => None
      end
  | Poll =>
      match main m with
      | Waiting =>
          if initialize_waiting (this (sys m)) then Some m
          else
            match initialize_return (sys m) with
            | (Ok st, s') => Some (mkMachine s' (Returned st))
            | (Raise _, _) => None
            end
      | Returned _ => None
      end
  end.

Fixpoint run (es : list event) (m : machine) : option machine :=
  match es with
  | [] => Some m
  | e :: es' =>
      match step e m with
      | Some m' => run es' m'
      | None => None
      end
  end.

(** [Data(config)]: the state in which the caller enters the loop of
    [initialize]. *)
Definition construct (cfg : MatrixConfig.t) (DEFAULT_CURRENCY : string)
           (w : world) : machine :=
  mkMachine
    (snd (__post_init__ (mkSystem (defaults cfg DEFAULT_CURRENCY) w [] 0)))
    Waiting.

(** A later call of a caller's method [c], at time [x]. *)
Definition call {A} (x : float) (c : M system A) (m : machine)
  : result A * machine :=
  let s := sys m in
  let (r, s') := c (mkSystem (this s) (set_now x (env s)) (pool s)
                             (max_threads s)) in
  (r, mkMachine s' (main m)).

End Workers.

End Data.

(* ================================================================== *)
(** * Worlds to run the code in *)
(* ================================================================== *)

Module Examples.

Import Py.

(** A key of 32 characters. *)
Definition key : string := "0123456789abcdef0123456789abcdef".

(** Bodies as the provider sends them. *)
Definition found (symbol : string) : value :=
  VDict [("data", VList [VDict [("symbol", VStr symbol)]])].

Definition named (n : string) : value :=
  VDict [("data", VList [VDict [("name", VStr n)]])].

Definition crypto_named (n : string) : value :=
  VDict [("data", VList [VDict [("currency_base", VStr n)]])].

Definition closed_at (price : string) : value :=
  VDict [("values", VList [VDict [("previous_close", VStr price)]])].

Definition priced (price : string) : value :=
  VDict [("price", VStr price)].

(** A provider that knows the symbol under the name [canonical], and
    answers the two price requests with [close] and [price]. *)
Definition provider (canonical : string) (close price : Ticker.reply)
  : nat -> Ticker.request -> Ticker.reply :=
  fun _ r =>
    match r with
    | Ticker.SYMBOL_SEARCH_URL _ => Ticker.Response (found canonical)
    | Ticker.STOCK_NAME_URL _ _ => Ticker.Response (named "Acme Inc.")
    | Ticker.CRYPTO_NAME_URL _ => Ticker.Response (crypto_named "Acme Coin")
    | Ticker.PREVIOUS_DAY_CLOSE_PRICE_URL _ _ => close
    | Ticker.CURRENT_PRICE_URL _ _ => price
    end.

(** A provider that is down. *)
Definition offline : nat -> Ticker.request -> Ticker.reply :=
  fun _ _ => Ticker.Fails RequestException.

(** Saturday 6 January 2024, 10:00 in New York; the Sunday and the Monday
    after it at the same hour; that Monday at 20:00. *)
Definition saturday_10am : instant :=
  mkInstant 1704553200 (mkDate 2024 1 6) (mkTime 10 0 0 0).

Definition sunday_10am : instant :=
  mkInstant 1704639600 (mkDate 2024 1 7) (mkTime 10 0 0 0).

Definition monday_10am : instant :=
  mkInstant 1704726000 (mkDate 2024 1 8) (mkTime 10 0 0 0).

Definition monday_8pm : instant :=
  mkInstant 1704762000 (mkDate 2024 1 8) (mkTime 20 0 0 0).

Definition world_at (i : instant) (net : nat -> Ticker.request -> Ticker.reply)
  : Ticker.world :=
  Ticker.mkWorld net [] [] i.

(** A ticker that was set up an hour before [i], with a close of 100 and a
    price of 110, to be refreshed every two minutes. *)
Definition tracked (i : instant) : Ticker.t :=
  Ticker.mkTicker (Some key) 120 "US" "AAA" (VStr "Acme Inc.")
                  (Some 100%float) (Some 110%float)
                  (Some "10.00") (Some "10.00%")
                  (Some true) (Some true) true
                  (PrimFloat.sub (epoch i) 3600).

(** Monday 8 January 2024, 10:00 in New York; the provider knows AAA,
    closed at 100 and now at 110.125. *)
Definition monday : Ticker.world :=
  world_at monday_10am
    (provider "AAA" (Ticker.Response (closed_at "100"))
                    (Ticker.Response (priced "110.125"))).

(** A ticker object on which [__init__] has not run yet, in that world. *)
Definition fresh (key : option string) (tk : string) : Ticker.state :=
  Ticker.mkState (Ticker.blank key tk "US" 120) monday.

(** A provider that lists no stock under the symbol asked for, and
    knows it as a cryptocurrency. *)
Definition crypto_only : nat -> Ticker.request -> Ticker.reply :=
  fun _ r =>
    match r with
    | Ticker.STOCK_NAME_URL _ _ => Ticker.Response (VDict [("data", VList [])])
    | Ticker.CRYPTO_NAME_URL _ => Ticker.Response (crypto_named "Bitcoin")
    | _ => Ticker.Fails RequestException
    end.

(** [float(s)] on the literals of these examples: the plain decimal
    ones, and [1e308] with either sign, whose nearest float is
    [0x1.1ccf385ebc8ap+1023]. *)
Definition float_literal (s : string) : option float :=
  if String.eqb s "1e308" then Some 0x1.1ccf385ebc8ap+1023%float
  else if String.eqb s "-1e308" then Some (-0x1.1ccf385ebc8ap+1023)%float
  else decimal_literal s.

(** *** For [Data] *)

(** The rate provider answers 1.25 whatever it is asked; the clock reads
    [x]; [strftime] is left symbolic; four cores. *)
Definition data_world (x : float) : Data.world :=
  Data.mkWorld (fun _ _ => 1.25%float) [] [] x (fun fmt => fmt) 4.

Definition no_tickers : MatrixConfig.t :=
  MatrixConfig.mk [] [] [] "EUR" 600 "%H:%M" "%d/%m/%Y".

Definition two_stocks : MatrixConfig.t :=
  MatrixConfig.mk ["AAA"; "ZZZ"] ["BTC"] [] "USD" 600 "%H:%M" "%d/%m/%Y".

(** Constructors that return a valid object for the symbols of [known] and
    an invalid one for every other symbol. *)
Definition knows (known : list string)
  : string -> string -> float -> result Instrument.t :=
  fun symbol _ rate =>
    Ok (Instrument.mk symbol (existsb (String.eqb symbol) known) rate).

Definition knows_pair (known : list string) : string -> result Instrument.t :=
  fun symbol =>
    Ok (Instrument.mk symbol (existsb (String.eqb symbol) known) 1).

(** A constructor that raises for the symbol [bad]. *)
Definition breaks_on (bad : string)
  : string -> string -> float -> result Instrument.t :=
  fun symbol _ rate =>
    if String.eqb symbol bad then Raise KeyError
    else Ok (Instrument.mk symbol true rate).

End Examples.

(* ================================================================== *)
(** * Facts about the runtime *)
(* ================================================================== *)

Module PyFacts.

Import Py.

Lemma digit_is_digit (n : Z) : 0 <= n <= 9 -> is_digit (digit n) = true.
Proof.
  intros H. unfold digit.
  assert (Z.to_nat n <= 9)%nat as Hk by lia.
  revert Hk. generalize (Z.to_nat n) as k. intros k Hk.
  do 10 (destruct k as [ | k]; [ reflexivity | ]).
  lia.
Qed.

Lemma digit_is_not_point (c : ascii) :
  is_digit c = true -> Ascii.eqb c "." = false.
Proof.
  intros H. destruct (Ascii.eqb_spec c "."%char) as [-> | ]; [ | reflexivity ].
  discriminate H.
Qed.

Lemma digit_is_not_minus (c : ascii) :
  is_digit c = true -> Ascii.eqb c "-" = false.
Proof.
  intros H. destruct (Ascii.eqb_spec c "-"%char) as [-> | ]; [ | reflexivity ].
  discriminate H.
Qed.

Lemma string_of_uint_all_digits (u : Decimal.uint) :
  all_digits (NilEmpty.string_of_uint u) = true.
Proof. induction u; simpl; auto. Qed.

Lemma digits_all_digits (n : Z) : all_digits (digits n) = true.
Proof.
  unfold digits, NilZero.string_of_uint.
  destruct (N.to_uint (Z.to_N n)) eqn:E; try reflexivity;
    rewrite <- E; apply string_of_uint_all_digits.
Qed.

Lemma digits_not_empty (n : Z) : String.length (digits n) <> 0%nat.
Proof.
  unfold digits, NilZero.string_of_uint.
  destruct (N.to_uint (Z.to_N n)); simpl; discriminate.
Qed.

Lemma split_point_digits (ip fp : string) :
  all_digits ip = true ->
  split_point (ip ++ String "." fp) = (ip, Some fp).
Proof.
  induction ip as [ | c ip IH]; simpl; intros H.
  - reflexivity.
  - apply andb_prop in H as [Hc Hip].
    rewrite (digit_is_not_point _ Hc), (IH Hip). reflexivity.
Qed.

Lemma two_digits_bounds (h : Z) :
  0 <= h mod 100 / 10 <= 9 /\ 0 <= h mod 10 <= 9.
Proof.
  pose proof (Z.mod_pos_bound h 10).
  pose proof (Z.mod_pos_bound h 100).
  assert (0 <= h mod 100 / 10 < 10).
  { split; [ apply Z.div_pos; lia | apply Z.div_lt_upper_bound; lia ]. }
  lia.
Qed.

Lemma fixed2_shape (h : Z) : unsigned_two_decimals (fixed2 h) = true.
Proof.
  unfold unsigned_two_decimals, fixed2.
  destruct (two_digits_bounds h) as [H1 H2].
  generalize (digit_is_digit H1) (digit_is_digit H2).
  generalize (digit (h mod 100 / 10)) (digit (h mod 10)).
  intros d1 d2 Hd1 Hd2.
  change ("." ++ String d1 (String d2 ""))%string
    with (String "." (String d1 (String d2 ""))).
  rewrite split_point_digits by apply digits_all_digits.
  pose proof (digits_not_empty (h / 100)) as Hne.
  apply Nat.eqb_neq in Hne. rewrite Hne, digits_all_digits.
  cbn [negb andb String.length Nat.eqb all_digits].
  rewrite Hd1, Hd2. reflexivity.
Qed.

Lemma fixed2_first_digit (h : Z) :
  exists c s, fixed2 h = String c s /\ is_digit c = true.
Proof.
  unfold fixed2.
  pose proof (digits_all_digits (h / 100)) as Ha.
  pose proof (digits_not_empty (h / 100)) as Hn.
  destruct (digits (h / 100)) as [ | c s]; [ now elim Hn | ].
  simpl in Ha. apply andb_prop in Ha as [Hc _].
  eexists; eexists; split; [ reflexivity | exact Hc ].
Qed.

(** A finite float is rendered with exactly two decimals. *)
Lemma format_2f_two_decimals (x : float) :
  is_finite x = true -> two_decimals (format_2f x) = true.
Proof.
  unfold is_finite, format_2f.
  destruct (Prim2SF x) as [ s | s | | s m e ]; try discriminate; intros _.
  - destruct s; reflexivity.
  - destruct s; simpl.
    + apply fixed2_shape.
    + destruct (fixed2_first_digit (hundredths m e)) as (c & r & E & Hc).
      pose proof (fixed2_shape (hundredths m e)) as Hs.
      rewrite E in *. unfold two_decimals.
      rewrite (digit_is_not_minus _ Hc). exact Hs.
Qed.

(** Otherwise the rendering is one of three words. *)
Lemma format_2f_not_finite (x : float) :
  is_finite x = false ->
  format_2f x = "inf" \/ format_2f x = "-inf" \/ format_2f x = "nan".
Proof.
  unfold is_finite, format_2f.
  destruct (Prim2SF x) as [ s | s | | s m e ]; try discriminate; intros _.
  - destruct s; auto.
  - auto.
Qed.

End PyFacts.

(* ================================================================== *)
(** * [Ticker]: what the methods do *)
(* ================================================================== *)

Module TickerFacts.

Import Py Ticker.
Local Open Scope py_scope.

Ltac unfold_monad :=
  unfold logging, attr, sys_exit, time_time, requests_get_json in *;
  unfold on_self, on_env in *;
  unfold bind, ret, raise, lift, gets, modify, get, try_except_request in *.

Ltac break_match :=
  match goal with
  | |- context [match ?x with _ => _ end] => destruct x eqn:?
  end.

(** *** Inversion of a successful sequence *)

Lemma bind_ok {S A B} (c : M S A) (k : A -> M S B) s b s' :
  bind c k s = (Ok b, s') ->
  exists a s1, c s = (Ok a, s1) /\ k a s1 = (Ok b, s').
Proof.
  unfold bind. destruct (c s) as [[a | e] s1]; intros H.
  - eauto.
  - discriminate.
Qed.

Lemma try_except_request_self {A} (body handler : M state A) s :
  (forall s0, self (snd (body s0)) = self s0) ->
  (forall s0, self (snd (handler s0)) = self s0) ->
  self (snd (try_except_request body handler s)) = self s.
Proof.
  intros Hb Hh. unfold try_except_request.
  specialize (Hb s). destruct (body s) as [[a | e] s1]; simpl in *.
  - exact Hb.
  - destruct e; simpl; try exact Hb; rewrite Hh; exact Hb.
Qed.

(** *** The calendar tests *)

Lemma weekend_eq s :
  weekend s = (Ok (5 <? weekday (today (clock (env s)))), s).
Proof. reflexivity. Qed.

Lemma after_hours_eq s :
  after_hours s =
  (Ok (time_ltb (eastern (clock (env s))) (mkTime 9 30 0 0) ||
       time_ltb (mkTime 16 0 0 0) (eastern (clock (env s)))), s).
Proof. reflexivity. Qed.

Lemma should_update_eq s :
  should_update s =
  (Ok (negb (5 <? weekday (today (clock (env s)))) &&
       negb (time_ltb (eastern (clock (env s))) (mkTime 9 30 0 0) ||
             time_ltb (mkTime 16 0 0 0) (eastern (clock (env s)))) &&
       PrimFloat.leb (update_rate (self s))
                     (PrimFloat.sub (epoch (clock (env s)))
                                    (last_updated (self s)))), s).
Proof.
  unfold should_update. unfold bind at 1. rewrite weekend_eq.
  destruct (5 <? weekday (today (clock (env s)))); cbn [negb andb].
  - reflexivity.
  - unfold bind at 1. rewrite after_hours_eq.
    destruct (_ || _); reflexivity.
Qed.

(** *** What a method leaves alone *)

Lemma logging_eq l msg s :
  logging l msg s = (Ok tt, mkState (self s) (add_log (l, msg) (env s))).
Proof. reflexivity. Qed.

Lemma get_value_change_eq s :
  get_value_change s =
  (match py_sub (current_price (self s)) (prev_day_close_price (self s)) with
   | Ok d => Ok (format_2f d)
   | Raise e => Raise e
   end,
   mkState (self s) (add_log (DEBUG, "Calculating value change") (env s))).
Proof.
  unfold get_value_change. unfold_monad. cbn [self env].
  destruct (py_sub _ _); reflexivity.
Qed.

(** The quotient that [get_percentage_change] formats. *)
Definition percentage (cur prev : option float) : result float :=
  match py_sub cur prev with
  | Ok d =>
      match py_abs prev with
      | Ok a =>
          match float_div d a with
          | Ok q => Ok (PrimFloat.mul 100 q)
          | Raise e => Raise e
          end
      | Raise e => Raise e
      end
  | Raise e => Raise e
  end.

Lemma get_percentage_change_eq s :
  get_percentage_change s =
  (match percentage (current_price (self s)) (prev_day_close_price (self s)) with
   | Ok q => Ok (format_2f q ++ "%")
   | Raise e => Raise e
   end,
   mkState (self s) (add_log (DEBUG, "Calculating percentage change") (env s))).
Proof.
  unfold get_percentage_change, percentage. unfold_monad. cbn [self env].
  destruct (py_sub _ _); [ | reflexivity ].
  destruct (py_abs _); [ | reflexivity ].
  destruct (float_div _ _); reflexivity.
Qed.

(** A computation that assigns no attribute of [self]. *)
Definition keeps_self {A} (c : M state A) : Prop :=
  forall s, self (snd (c s)) = self s.

Lemma keeps_self_ret {A} (a : A) : keeps_self (ret a).
Proof. intro s. reflexivity. Qed.

Lemma keeps_self_raise {A} e : keeps_self (@raise state A e).
Proof. intro s. reflexivity. Qed.

Lemma keeps_self_lift {A} (r : result A) : keeps_self (lift r).
Proof. intro s. reflexivity. Qed.

Lemma keeps_self_attr {A} (f : t -> A) : keeps_self (attr f).
Proof. intro s. reflexivity. Qed.

Lemma keeps_self_gets {A} (f : state -> A) : keeps_self (gets f).
Proof. intro s. reflexivity. Qed.

Lemma keeps_self_logging l msg : keeps_self (logging l msg).
Proof. intro s. reflexivity. Qed.

Lemma keeps_self_sys_exit {A} n : keeps_self (@sys_exit A n).
Proof. intro s. reflexivity. Qed.

Lemma keeps_self_time_time : keeps_self time_time.
Proof. intro s. reflexivity. Qed.

Lemma keeps_self_requests_get_json url : keeps_self (requests_get_json url).
Proof.
  intro s. unfold requests_get_json.
  destruct (net _ _ _); reflexivity.
Qed.

Lemma keeps_self_bind {A B} (c : M state A) (k : A -> M state B) :
  keeps_self c -> (forall a, keeps_self (k a)) -> keeps_self (bind c k).
Proof.
  intros Hc Hk s. unfold bind. specialize (Hc s).
  destruct (c s) as [[a | e] s1]; cbn [snd] in *.
  - rewrite Hk. exact Hc.
  - exact Hc.
Qed.

Lemma keeps_self_try {A} (body handler : M state A) :
  keeps_self body -> keeps_self handler ->
  keeps_self (try_except_request body handler).
Proof.
  intros Hb Hh s. apply try_except_request_self; assumption.
Qed.

Lemma keeps_self_if {A} (b : bool) (c1 c2 : M state A) :
  keeps_self c1 -> keeps_self c2 -> keeps_self (if b then c1 else c2).
Proof. destruct b; auto. Qed.

Create HintDb frame.

#[local] Hint Resolve keeps_self_ret keeps_self_raise keeps_self_lift
  keeps_self_attr keeps_self_gets keeps_self_logging keeps_self_sys_exit
  keeps_self_time_time keeps_self_requests_get_json keeps_self_try
  keeps_self_if : frame.

Ltac frame :=
  repeat first
    [ apply keeps_self_bind; [ | intro ]
    | apply keeps_self_try
    | apply keeps_self_if
    | solve [ auto with frame ] ].

Lemma keeps_self_weekend : keeps_self weekend.
Proof. unfold weekend. frame. Qed.

Lemma keeps_self_after_hours : keeps_self after_hours.
Proof. unfold after_hours. frame. Qed.

Lemma keeps_self_should_update : keeps_self should_update.
Proof. intro s. rewrite should_update_eq. reflexivity. Qed.

Lemma keeps_self_ticker_valid : keeps_self ticker_valid.
Proof. unfold ticker_valid. frame. Qed.

Lemma keeps_self_api_key_valid : keeps_self api_key_valid.
Proof. unfold api_key_valid. frame. Qed.

Lemma keeps_self_get_crypto_name : keeps_self get_crypto_name.
Proof. unfold get_crypto_name. frame. Qed.

#[local] Hint Resolve keeps_self_get_crypto_name : frame.

Lemma keeps_self_get_stock_name : keeps_self get_stock_name.
Proof. unfold get_stock_name. frame. Qed.

Lemma keeps_self_get_value_change : keeps_self get_value_change.
Proof. intro s. rewrite get_value_change_eq. reflexivity. Qed.

Lemma keeps_self_get_percentage_change : keeps_self get_percentage_change.
Proof. intro s. rewrite get_percentage_change_eq. reflexivity. Qed.

Section Getters.

Variable str_to_float : string -> option float.

Lemma keeps_self_get_current_price :
  keeps_self (get_current_price str_to_float).
Proof. unfold get_current_price. frame. Qed.

Lemma keeps_self_get_previous_day_close_price :
  keeps_self (get_previous_day_close_price str_to_float).
Proof. unfold get_previous_day_close_price. frame. Qed.

(** *** A successful [setup_data] *)

(** Peel one statement off a sequence that ended normally. *)
Ltac step H a s E := apply bind_ok in H as (a & s & E & H).

(** Use that the statement of [E] assigns no attribute. *)
Ltac unchanged E lem :=
  match type of E with
  | _ ?s0 = (_, ?s1) =>
      let F := fresh "F" in
      pose proof (lem s0) as F; rewrite E in F; cbn [snd] in F
  end.

(** An assignment to an attribute. *)
Ltac assigned E :=
  unfold on_self, modify in E; injection E as _ E; subst.

Lemma setup_data_ok s s' :
  setup_data str_to_float s = (Ok tt, s') ->
  exists n c p,
    self s' =
      derived p c
        (set_current_price (Some p)
           (set_prev_day_close_price (Some c) (set_name n (self s)))) /\
    PrimFloat.eqb (PrimFloat.abs c) 0 = false.
Proof.
  intros H. unfold setup_data in H.
  step H u0 s0 E0. rewrite logging_eq in E0. injection E0 as _ E0. subst s0.
  step H n s1 E1. unchanged E1 keeps_self_get_stock_name.
  step H u2 s2 E2. assigned E2.
  step H c s3 E3. unchanged E3 keeps_self_get_previous_day_close_price.
  step H u4 s4 E4. assigned E4.
  step H p s5 E5. unchanged E5 keeps_self_get_current_price.
  step H u6 s6 E6. assigned E6.
  step H v s7 E7. rewrite get_value_change_eq in E7.
  step H u8 s8 E8. assigned E8.
  step H pc s9 E9. rewrite get_percentage_change_eq in E9.
  unfold on_self, modify in H. injection H as H. subst s'.
  cbn [self env] in *.
  rewrite F1, F0, F in *. cbn [self env set_name set_prev_day_close_price
    set_current_price set_value_change current_price prev_day_close_price] in *.
  destruct p as [p | ]; destruct c as [c | ];
    cbn [py_sub] in E7; try discriminate.
  injection E7 as E7 E7'. subst v s7.
  cbn [self env set_name set_prev_day_close_price percentage py_sub py_abs
    set_current_price set_value_change current_price prev_day_close_price] in E9.
  unfold float_div in E9.
  destruct (PrimFloat.eqb (PrimFloat.abs c) 0) eqn:Ez; try discriminate.
  injection E9 as E9 E9'. subst pc s9.
  exists n, c, p. split; [ reflexivity | assumption ].
Qed.

(** *** A successful refresh *)

Lemma fetch_new_data_ok s s' :
  fetch_new_data str_to_float s = (Ok tt, s') ->
  exists c p,
    prev_day_close_price (self s) = Some c /\
    self s' =
      derived p c
        (set_current_price (Some p)
           (set_last_updated (epoch (clock (env s))) (self s))) /\
    PrimFloat.eqb (PrimFloat.abs c) 0 = false.
Proof.
  intros H. unfold fetch_new_data in H.
  step H u0 s0 E0. rewrite logging_eq in E0. injection E0 as _ E0. subst s0.
  step H now s1 E1. unfold time_time, gets in E1. injection E1 as E1 E1'.
  subst now s1. cbn [self env add_log clock] in H.
  step H u2 s2 E2. assigned E2.
  step H p s3 E3. unchanged E3 keeps_self_get_current_price.
  step H u4 s4 E4. assigned E4.
  step H v s5 E5. rewrite get_value_change_eq in E5.
  step H u6 s6 E6. assigned E6.
  step H pc s7 E7. rewrite get_percentage_change_eq in E7.
  unfold on_self, modify in H. injection H as H. subst s'.
  cbn [self env] in *. rewrite F in *.
  cbn [self env set_last_updated set_current_price set_value_change
    current_price prev_day_close_price] in *.
  destruct p as [p | ];
    destruct (prev_day_close_price (self s)) as [c | ] eqn:Ec;
    cbn [py_sub] in E5; try discriminate.
  injection E5 as E5 E5'. subst v s5.
  cbn [self env set_last_updated set_current_price set_value_change
    current_price prev_day_close_price] in E7.
  rewrite Ec in E7.
  cbn [percentage py_sub py_abs] in E7. unfold float_div in E7.
  destruct (PrimFloat.eqb (PrimFloat.abs c) 0) eqn:Ez; try discriminate.
  injection E7 as E7 E7'. subst pc s7.
  exists c, p. split; [ reflexivity | ]. split; [ reflexivity | assumption ].
Qed.

Lemma update_data_unfold force :
  update_data str_to_float force =
  (initialized <- attr data_initialized ;;
   (if negb initialized then
      setup_data str_to_float ;; on_self (set_data_initialized true)
    else ret tt) ;;
   go <- (if force then ret true else should_update) ;;
   if go then fetch_new_data str_to_float else ret tt).
Proof. reflexivity. Qed.

End Getters.

(** *** The two validity checks *)

(** The world after the request of [ticker_valid]. *)
Definition searched (s : state) : world :=
  add_call (SYMBOL_SEARCH_URL (ticker (self s)))
    (add_log (DEBUG, "Verifying validity of ticker: " ++ ticker (self s))
       (env s)).

(** What [ticker_valid] makes of an exception of its [try] block. *)
Definition ticker_valid_except (e : exn) (s : state)
  : result (option bool) * state :=
  match e with
  | RequestException =>
      (Ok None,
       mkState (self s)
         (add_log (ERROR, "Failed to verify validity of ticker: "
                          ++ ticker (self s)) (searched s)))
  | _ => (Raise e, mkState (self s) (searched s))
  end.

Lemma ticker_valid_eq s :
  ticker_valid s =
  match net (env s) (List.length (calls (env s)))
            (SYMBOL_SEARCH_URL (ticker (self s))) with
  | Response body =>
      match canonical_symbol body with
      | Ok symbol =>
          if eq_str symbol (ticker (self s))
          then (Ok (Some true), mkState (self s) (searched s))
          else (Raise (SystemExit 1),
                mkState (self s)
                  (add_log (ERROR, "Ticker: " ++ ticker (self s)
                                   ++ " does not exist.") (searched s)))
      | Raise e => ticker_valid_except e s
      end
  | Fails e => ticker_valid_except e s
  end.
Proof.
  unfold ticker_valid, canonical_symbol, ticker_valid_except, searched.
  unfold_monad. cbn [self env add_log net calls].
  destruct (net _ _ _) as [body | e].
  - destruct (getitem_key body "data") as [data | e]; [ | destruct e; reflexivity ].
    destruct (getitem_0 data) as [first | e]; [ | destruct e; reflexivity ].
    destruct (getitem_key first "symbol") as [symbol | e];
      [ | destruct e; reflexivity ].
    destruct (eq_str symbol (ticker (self s))); reflexivity.
  - destruct e; reflexivity.
Qed.

Lemma ticker_valid_never_false s : fst (ticker_valid s) <> Ok (Some false).
Proof.
  rewrite ticker_valid_eq. unfold ticker_valid_except.
  destruct (net _ _ _) as [body | e].
  - destruct (canonical_symbol body) as [symbol | e].
    + destruct (eq_str _ _); discriminate.
    + destruct e; discriminate.
  - destruct e; discriminate.
Qed.

Lemma ticker_valid_calls s :
  calls (env (snd (ticker_valid s))) =
  (calls (env s) ++ [SYMBOL_SEARCH_URL (ticker (self s))])%list.
Proof.
  rewrite ticker_valid_eq. unfold ticker_valid_except, searched.
  destruct (net _ _ _) as [body | e].
  - destruct (canonical_symbol body) as [symbol | e].
    + destruct (eq_str _ _); reflexivity.
    + destruct e; reflexivity.
  - destruct e; reflexivity.
Qed.

(** The test of [api_key_valid]: no key, or one of fewer than 32
    characters. *)
Definition key_rejected (key : option string) : bool :=
  match key with
  | None => true
  | Some k => (String.length k <? 32)%nat
  end.

Lemma api_key_valid_eq s :
  api_key_valid s =
  if key_rejected (api_key (self s)) then
    (Raise (SystemExit 1),
     mkState (self s)
       (add_log (ERROR, "If you do not have an API key, you can get a free key at twelvedata.com/register")
          (add_log (ERROR, "API key is not valid. Please verify your config.json file.")
             (env s))))
  else (Ok true, s).
Proof.
  unfold api_key_valid, key_rejected. unfold_monad. cbn [self env].
  destruct (api_key (self s)) as [k | ]; [ destruct (_ <? _)%nat | ];
    reflexivity.
Qed.

Lemma eq_str_true (v : value) (s : string) :
  eq_str v s = true <-> v = VStr s.
Proof.
  destruct v; cbn; try (split; [ discriminate | intros [=] ]).
  rewrite String.eqb_eq. split; [ intros -> | intros [= ->] ]; reflexivity.
Qed.

(** Nothing in the [try] block of [ticker_valid] raises
    [RequestException] but the request itself. *)
Lemma canonical_symbol_not_request body :
  canonical_symbol body <> Raise RequestException.
Proof.
  unfold canonical_symbol, getitem_key, getitem_0.
  destruct body as [ | | | | | d]; try discriminate.
  destruct (assoc "data" d) as [data | ]; try discriminate.
  destruct data as [ | | | [ | ] | [ | first ] | ]; try discriminate.
  destruct first as [ | | | | | d']; try discriminate.
  destruct (assoc "symbol" d'); discriminate.
Qed.


End TickerFacts.

(* ================================================================== *)
(** * [Ticker]: the specification against the code *)
(* ================================================================== *)

Module TickerSpec.

Import Py Ticker TickerFacts.
Local Open Scope py_scope.

(** C1 (weekend check).  The specification wants the weekend test true on
    Saturdays and Sundays, so that [should_update] is false on both.  The
    test is [week_day_no > 5], and the source comments it with
    [5 Sat, 6 Sun]: on Saturday 6 January 2024 at 10:00 in New York, one hour
    after the last update of a ticker refreshed every 120 seconds,
    [weekday()] is 5, [weekend()] returns [False] and [should_update()]
    returns [True]. *)
Theorem saturday_is_not_a_weekend_day :
  let s := mkState (Examples.tracked Examples.saturday_10am)
                   (Examples.world_at Examples.saturday_10am Examples.offline) in
  weekday (today Examples.saturday_10am) = 5 /\
  fst (weekend s) = Ok false /\
  fst (should_update s) = Ok true.
Proof. repeat split; vm_compute; reflexivity. Qed.

(** C2 (percentage change with a zero close).  The specification wants an
    explicit undefined result and no crash when the previous close is zero.
    [get_percentage_change] divides by [abs(self.prev_day_close_price)]
    with no guard: with a current price and a previous close of [0.0] or
    [-0.0] it raises [ZeroDivisionError]. *)
Theorem percentage_change_of_zero_close_raises (s : state) (p z : float) :
  current_price (self s) = Some p ->
  prev_day_close_price (self s) = Some z ->
  z = 0%float \/ z = (-0)%float ->
  fst (get_percentage_change s) = Raise ZeroDivisionError.
Proof.
  intros Hp Hz Hzero. rewrite get_percentage_change_eq, Hp, Hz.
  destruct Hzero; subst z; reflexivity.
Qed.

Lemma percentage_change_of_zero_close_raises_witness :
  let s := mkState (set_prev_day_close_price (Some 0%float)
                      (Examples.tracked Examples.monday_10am))
                   (Examples.world_at Examples.monday_10am Examples.offline) in
  fst (get_percentage_change s) = Raise ZeroDivisionError.
Proof.
  intro s.
  apply (@percentage_change_of_zero_close_raises s 110%float 0%float);
    [ reflexivity | reflexivity | left; reflexivity ].
Defined.

(** [s] is what ["{:.2f}"] makes of [x]: an optional minus sign, digits,
    a point and exactly two digits when [x] is finite; the name of the
    special value when it is not. *)
Definition rendering (x : float) (s : string) : Prop :=
  s = format_2f x /\
  if is_finite x then two_decimals s = true
  else s = "inf" \/ s = "-inf" \/ s = "nan".

(** Both prices are stored, and the derived fields are the renderings of
    their difference and of its percentage of the close, the second with a
    percent sign after it. *)
Definition changes_rendered (o : t) : Prop :=
  exists c p v q,
    prev_day_close_price o = Some c /\
    current_price o = Some p /\
    value_change o = Some v /\
    percentage_change o = Some (q ++ "%") /\
    rendering (p - c) v /\
    rendering (100 * ((p - c) / PrimFloat.abs c)) q.

Lemma rendering_format (x : float) : rendering x (format_2f x).
Proof.
  split; [ reflexivity | ]. destruct (is_finite x) eqn:E.
  - apply PyFacts.format_2f_two_decimals. exact E.
  - apply PyFacts.format_2f_not_finite. exact E.
Qed.

Lemma changes_rendered_intro (o : t) (c p : float) :
  prev_day_close_price o = Some c ->
  current_price o = Some p ->
  value_change o = Some (format_2f (p - c)) ->
  percentage_change o
    = Some (format_2f (100 * ((p - c) / PrimFloat.abs c)) ++ "%") ->
  changes_rendered o.
Proof.
  intros Hc Hp Hv Hq.
  exists c, p, (format_2f (p - c)),
         (format_2f (100 * ((p - c) / PrimFloat.abs c))).
  split; [ exact Hc | ]. split; [ exact Hp | ]. split; [ exact Hv | ].
  split; [ exact Hq | ]. split; apply rendering_format.
Qed.

Section Specification.

Variable str_to_float : string -> option float.

(** C3 (provider failure during an update).  The specification wants the
    failure caught, the field left at its previous value, and nothing
    raised to the caller of [update_data].  [get_current_price] catches
    [RequestException], logs it and falls off its end, so it returns
    [None]; [update_data] assigns that to [self.current_price] and
    [get_value_change] then subtracts from [None]: the previous price is
    lost and [TypeError] leaves [update_data]. *)
Theorem failed_price_fetch_raises_from_update_data (s : state) (p : float) :
  data_initialized (self s) = true ->
  current_price (self s) = Some p ->
  net (env s) (List.length (calls (env s)))
      (CURRENT_PRICE_URL (ticker (self s)) (api_key (self s)))
    = Fails RequestException ->
  fst (update_data str_to_float true s) = Raise TypeError /\
  current_price (self (snd (update_data str_to_float true s))) = None.
Proof.
  intros Hi Hp Hn.
  unfold update_data, get_current_price, get_value_change.
  unfold_monad. cbn [self env]. rewrite Hi.
  cbn [negb add_log net calls clock self env set_last_updated ticker api_key].
  rewrite Hn.
  cbn. split; reflexivity.
Qed.

(** C5 (credential check), as amended.  A missing key or one of fewer
    than 32 characters makes [api_key_valid] exit with status 1, and the
    check itself sends no request.  In [__init__] it runs after
    [ticker_valid]: constructing the ticker sends exactly one request, the
    symbol search, and never returns an object; it exits with status 1
    unless [ticker_valid] raised first. *)
Theorem rejected_key_exits_after_the_symbol_search
        (key : option string) (tk ctry : string) (rate : float) (w : world) :
  key_rejected key = true ->
  (forall s, api_key (self s) = key ->
     fst (api_key_valid s) = Raise (SystemExit 1) /\
     calls (env (snd (api_key_valid s))) = calls (env s)) /\
  calls (snd (new str_to_float key tk ctry rate w))
    = (calls w ++ [SYMBOL_SEARCH_URL tk])%list /\
  match fst (ticker_valid (mkState (blank key tk ctry rate) w)) with
  | Ok _ => fst (new str_to_float key tk ctry rate w) = Raise (SystemExit 1)
  | Raise e => fst (new str_to_float key tk ctry rate w) = Raise e
  end.
Proof.
  intros Hkey. split.
  - intros s Hs. rewrite api_key_valid_eq, Hs, Hkey. split; reflexivity.
  - assert (new str_to_float key tk ctry rate w =
            match ticker_valid (mkState (blank key tk ctry rate) w) with
            | (Ok _, s1) =>
                (Raise (SystemExit 1), env (snd (api_key_valid s1)))
            | (Raise e, s1) => (Raise e, env s1)
            end) as ->.
    { unfold new, __init__. unfold bind at 1.
      pose proof (keeps_self_ticker_valid (mkState (blank key tk ctry rate) w))
        as Hs.
      destruct (ticker_valid _) as [[v | e] s1]; [ | reflexivity ].
      cbn [snd self] in Hs.
      unfold bind at 1. unfold on_self at 1, modify at 1.
      unfold bind at 1. rewrite !api_key_valid_eq.
      cbn [self env]. rewrite Hs. cbn [set_ticker_valid api_key blank].
      rewrite Hkey. reflexivity. }
    pose proof (ticker_valid_calls (mkState (blank key tk ctry rate) w)) as Hc.
    destruct (ticker_valid _) as [[v | e] s1];
      cbn [fst snd self env blank ticker] in *.
    + rewrite api_key_valid_eq.
      destruct (key_rejected (api_key (self s1)));
        cbn [snd env add_log calls]; split; first [ exact Hc | reflexivity ].
    + split; [ exact Hc | reflexivity ].
Qed.

(** C7 (symbol validation), as amended.  When the request of
    [ticker_valid] fails with [RequestException], the exception is caught,
    an error is logged and the method returns [None]: nothing is raised.
    When the provider answers with another symbol than the one asked for
    the method exits with status 1.  It returns [True] exactly when the
    provider's symbol is the string asked for, and it never returns
    [False]. *)
Theorem ticker_valid_outcomes (s : state) :
  let tk := ticker (self s) in
  let reply := net (env s) (List.length (calls (env s))) (SYMBOL_SEARCH_URL tk) in
  (reply = Fails RequestException ->
     fst (ticker_valid s) = Ok None /\
     In (ERROR, "Failed to verify validity of ticker: " ++ tk)
        (logs (env (snd (ticker_valid s))))) /\
  (forall body symbol,
     reply = Response body -> canonical_symbol body = Ok symbol ->
     symbol <> VStr tk ->
     fst (ticker_valid s) = Raise (SystemExit 1)) /\
  (fst (ticker_valid s) = Ok (Some true) <->
     exists body, reply = Response body /\ canonical_symbol body = Ok (VStr tk)) /\
  fst (ticker_valid s) <> Ok (Some false).
Proof.
  intros tk reply. rewrite ticker_valid_eq. fold tk. fold reply.
  repeat split.
  - rewrite H. reflexivity.
  - rewrite H. cbn [ticker_valid_except snd env logs add_log].
    apply in_or_app. right. left. reflexivity.
  - intros body symbol Hr Hc Hne. rewrite Hr, Hc.
    destruct (eq_str symbol tk) eqn:E; [ | reflexivity ].
    apply eq_str_true in E. contradiction.
  - destruct reply as [body | e].
    + destruct (canonical_symbol body) as [symbol | e] eqn:Hc.
      * destruct (eq_str symbol tk) eqn:E; [ | discriminate ].
        apply eq_str_true in E. subst symbol. intros _. exists body. auto.
      * destruct e; discriminate.
    + destruct e; discriminate.
  - intros (body & -> & ->).
    assert (eq_str (VStr tk) tk = true) as -> by (apply eq_str_true; reflexivity).
    reflexivity.
  - destruct reply as [body | e].
    + destruct (canonical_symbol body) as [symbol | e].
      * destruct (eq_str symbol tk); discriminate.
      * destruct e; discriminate.
    + destruct e; discriminate.
Qed.

(** C8 (derived fields after the first fetch), as amended.  After a
    [setup_data] that ended normally both prices are floats, the close is
    not zero, [value_change] is the string that ["{:.2f}"] makes of
    [current_price - prev_day_close_price], and [percentage_change] is the
    string that it makes of
    [100 * ((current_price - prev_day_close_price) / abs(prev_day_close_price))],
    followed by a percent sign. *)
Theorem setup_data_formats_the_changes (s s' : state) :
  setup_data str_to_float s = (Ok tt, s') ->
  exists c p,
    prev_day_close_price (self s') = Some c /\
    current_price (self s') = Some p /\
    value_change (self s') = Some (format_2f (p - c)) /\
    percentage_change (self s')
      = Some (format_2f (100 * ((p - c) / PrimFloat.abs c)) ++ "%") /\
    PrimFloat.eqb (PrimFloat.abs c) 0 = false.
Proof.
  intros H. apply setup_data_ok in H as (n & c & p & -> & Hz).
  exists c, p. repeat split; try reflexivity. exact Hz.
Qed.

(** C10 (the derived fields are strings of two decimals), as amended.
    After a [setup_data] that ended normally, and after an [update_data]
    that ended normally on an object not yet initialised, or with [force],
    or with [should_update()] true, both prices are stored, [value_change]
    is the string that ["{:.2f}"] makes of
    [current_price - prev_day_close_price] and [percentage_change] the
    string that it makes of
    [100 * ((current_price - prev_day_close_price) / abs(prev_day_close_price))],
    followed by a percent sign.  Where the number formatted is finite the
    string is an optional minus sign, digits, a point and exactly two
    digits; where it is not, the string is [inf], [-inf] or [nan]. *)
Theorem derived_fields_render_the_stored_prices :
  (forall s s',
     setup_data str_to_float s = (Ok tt, s') -> changes_rendered (self s')) /\
  (forall force s s',
     update_data str_to_float force s = (Ok tt, s') ->
     data_initialized (self s) = false \/ force = true \/
       fst (should_update s) = Ok true ->
     changes_rendered (self s')).
Proof.
  split.
  - intros s s' H. apply setup_data_ok in H as (n & c & p & -> & _).
    apply (@changes_rendered_intro _ c p); reflexivity.
  - intros force s s' H Hgo. rewrite update_data_unfold in H.
    apply bind_ok in H as (initialized & s0 & E0 & H).
    unfold attr, gets in E0. injection E0 as E0 E0'. subst initialized s0.
    apply bind_ok in H as (u1 & s1 & E1 & H).
    apply bind_ok in H as (go & s2 & E2 & H).
    assert (self s2 = self s1) as Hs2.
    { destruct force.
      - cbv beta iota delta [ret] in E2. injection E2 as _ <-. reflexivity.
      - pose proof (keeps_self_should_update s1) as F. rewrite E2 in F. exact F. }
    destruct go.
    + apply fetch_new_data_ok in H as (c & p & Hc & -> & _).
      apply (@changes_rendered_intro _ c p); try reflexivity. exact Hc.
    + unfold ret in H. cbv beta in H. injection H as <-. rewrite Hs2.
      destruct (data_initialized (self s)) eqn:Hi; cbn [negb] in E1.
      * exfalso. unfold ret in E1. cbv beta in E1. injection E1 as _ <-.
        destruct Hgo as [Hgo | [-> | Hgo]]; try discriminate.
        destruct force; [ discriminate | ].
        rewrite E2 in Hgo. discriminate.
      * apply bind_ok in E1 as (u & s3 & E3 & E1). destruct u.
        apply setup_data_ok in E3 as (n & c & p & E3 & _).
        unfold on_self, modify in E1. injection E1 as _ E1. subst s1.
        cbn [self]. rewrite E3.
        apply (@changes_rendered_intro _ c p); reflexivity.
Qed.

End Specification.

Lemma failed_price_fetch_raises_from_update_data_witness :
  let s := mkState (Examples.tracked Examples.monday_10am)
                   (Examples.world_at Examples.monday_10am Examples.offline) in
  fst (update_data decimal_literal true s) = Raise TypeError /\
  current_price (self (snd (update_data decimal_literal true s))) = None.
Proof.
  intro s.
  apply (@failed_price_fetch_raises_from_update_data decimal_literal s 110%float);
    reflexivity.
Defined.

(** C5, the statement of the specification refuted: with no key at all the
    process exits, but only after the symbol search has been sent. *)
Lemma missing_key_is_noticed_after_a_request :
  fst (new decimal_literal None "AAA" "US" 120 Examples.monday) = Raise (SystemExit 1) /\
  calls (snd (new decimal_literal None "AAA" "US" 120 Examples.monday))
    = [SYMBOL_SEARCH_URL "AAA"].
Proof. split; vm_compute; reflexivity. Qed.

Lemma rejected_key_exits_after_the_symbol_search_witness :
  fst (new decimal_literal (Some "short") "AAA" "US" 120 Examples.monday)
    = Raise (SystemExit 1).
Proof.
  pose proof (@rejected_key_exits_after_the_symbol_search decimal_literal
                (Some "short") "AAA" "US" 120%float Examples.monday eq_refl)
    as (_ & _ & H).
  exact H.
Defined.

(** C7, the statement of the specification refuted: with the provider
    down, [ticker_valid] raises nothing and returns [None], a result that
    is not [True] although no symbol was compared. *)
Lemma failed_symbol_search_is_swallowed :
  let s := mkState (blank (Some Examples.key) "AAA" "US" 120)
                   (Examples.world_at Examples.monday_10am Examples.offline) in
  fst (ticker_valid s) = Ok None.
Proof. vm_compute. reflexivity. Qed.

Lemma ticker_valid_outcomes_witness :
  fst (ticker_valid (Examples.fresh (Some Examples.key) "AAA")) = Ok (Some true) /\
  fst (ticker_valid (Examples.fresh (Some Examples.key) "ZZZ")) = Raise (SystemExit 1).
Proof.
  split.
  - apply (proj2 (proj1 (proj2 (proj2
             (ticker_valid_outcomes (Examples.fresh (Some Examples.key) "AAA")))))).
    exists (Examples.found "AAA"). split; reflexivity.
  - apply (proj1 (proj2 (ticker_valid_outcomes (Examples.fresh (Some Examples.key) "ZZZ")))
             (Examples.found "AAA") (VStr "AAA")); [ reflexivity | reflexivity | ].
    discriminate.
Defined.

(** C8, the statement of the specification refuted: with a close of 100
    and a price of 110.125 the difference is 10.125, but [value_change] is
    the string [10.12], which neither is a float nor reads as 10.125. *)
Lemma value_change_is_a_rounded_string :
  let s' := snd (setup_data decimal_literal (Examples.fresh (Some Examples.key) "AAA")) in
  fst (setup_data decimal_literal (Examples.fresh (Some Examples.key) "AAA")) = Ok tt /\
  prev_day_close_price (self s') = Some 100%float /\
  current_price (self s') = Some 110.125%float /\
  PrimFloat.sub 110.125 100 = 10.125%float /\
  value_change (self s') = Some "10.12" /\
  percentage_change (self s') = Some "10.12%" /\
  option_map (fun x => PrimFloat.eqb x 10.125) (decimal_literal "10.12")
    = Some false.
Proof. repeat split; vm_compute; reflexivity. Qed.

Lemma setup_data_formats_the_changes_witness :
  exists c p,
    prev_day_close_price
      (self (snd (setup_data decimal_literal (Examples.fresh (Some Examples.key) "AAA"))))
      = Some c /\
    current_price
      (self (snd (setup_data decimal_literal (Examples.fresh (Some Examples.key) "AAA"))))
      = Some p /\
    value_change
      (self (snd (setup_data decimal_literal (Examples.fresh (Some Examples.key) "AAA"))))
      = Some (format_2f (p - c)) /\
    percentage_change
      (self (snd (setup_data decimal_literal (Examples.fresh (Some Examples.key) "AAA"))))
      = Some (format_2f (100 * ((p - c) / PrimFloat.abs c)) ++ "%") /\
    PrimFloat.eqb (PrimFloat.abs c) 0 = false.
Proof.
  apply (@setup_data_formats_the_changes decimal_literal
           (Examples.fresh (Some Examples.key) "AAA")).
  vm_compute. reflexivity.
Defined.

(** C10, the statement of the specification refuted: the close is
    [-1e308] and the price [1e308], two finite floats whose difference
    overflows.  [setup_data] ends normally; [value_change] is the string
    [inf] and [percentage_change] the string [inf%], with no point and no
    decimals. *)
Lemma overflowing_change_has_no_decimals :
  let w := Examples.world_at Examples.monday_10am
             (Examples.provider "AAA" (Response (Examples.closed_at "-1e308"))
                                      (Response (Examples.priced "1e308"))) in
  let s := mkState (blank (Some Examples.key) "AAA" "US" 120) w in
  let s' := snd (setup_data Examples.float_literal s) in
  fst (setup_data Examples.float_literal s) = Ok tt /\
  option_map is_finite (prev_day_close_price (self s')) = Some true /\
  option_map is_finite (current_price (self s')) = Some true /\
  value_change (self s') = Some "inf" /\
  percentage_change (self s') = Some "inf%" /\
  two_decimals "inf" = false.
Proof. repeat split; vm_compute; reflexivity. Qed.

Lemma derived_fields_render_the_stored_prices_witness :
  let o := self (snd (update_data decimal_literal true
                        (Examples.fresh (Some Examples.key) "AAA"))) in
  changes_rendered o /\
  value_change o = Some "10.12" /\
  percentage_change o = Some "10.12%".
Proof.
  intro o. split; [ | split; vm_compute; reflexivity ].
  apply (proj2 (derived_fields_render_the_stored_prices decimal_literal)
               true (Examples.fresh (Some Examples.key) "AAA")).
  - vm_compute. reflexivity.
  - right. left. reflexivity.
Defined.

(** C6, the statement of the specification refuted on [Ticker]: ZZZ is
    asked for and the provider's first match is ZZZT.  The constructor
    exits with status 1 after the symbol search; no object comes back,
    valid or not. *)
Lemma unconfirmed_symbol_exits :
  let w := Examples.world_at Examples.monday_10am
             (Examples.provider "ZZZT" (Response (Examples.closed_at "100"))
                                       (Response (Examples.priced "110"))) in
  fst (new decimal_literal (Some Examples.key) "ZZZ" "US" 120 w)
    = Raise (SystemExit 1) /\
  calls (snd (new decimal_literal (Some Examples.key) "ZZZ" "US" 120 w))
    = [SYMBOL_SEARCH_URL "ZZZ"].
Proof. split; vm_compute; reflexivity. Qed.

End TickerSpec.

(* ================================================================== *)
(** * [Ticker]: further properties of the methods *)
(* ================================================================== *)

Module TickerProps.

Import Py Ticker TickerFacts.
Local Open Scope py_scope.

(** ** The market calendar *)

Lemma weekday_range (d : date) : 0 <= weekday d <= 6.
Proof. unfold weekday. pose proof (Z.mod_pos_bound (toordinal d + 6) 7). lia. Qed.

(** [weekend()] returns [True] on Sundays and on no other day. *)
Theorem weekend_is_sunday (s : state) :
  fst (weekend s) = Ok true <-> weekday (today (clock (env s))) = 6.
Proof.
  rewrite weekend_eq. cbn [fst].
  pose proof (weekday_range (today (clock (env s)))) as Hr.
  split.
  - intros [= H]. apply Z.ltb_lt in H. lia.
  - intros ->. reflexivity.
Qed.

(** A time of day as [datetime] holds it. *)
Definition time_in_range (t : time_of_day) : Prop :=
  0 <= hour t < 24 /\ 0 <= minute t < 60 /\ 0 <= second t < 60 /\
  0 <= microsecond t < 1000000.

Lemma time_ltb_microseconds (a b : time_of_day) :
  time_in_range a -> time_in_range b ->
  time_ltb a b = (microseconds a <? microseconds b).
Proof.
  unfold time_in_range, time_ltb, microseconds. intros Ha Hb.
  destruct (Z.ltb_spec (hour a) (hour b));
  destruct (Z.eqb_spec (hour a) (hour b));
  destruct (Z.ltb_spec (minute a) (minute b));
  destruct (Z.eqb_spec (minute a) (minute b));
  destruct (Z.ltb_spec (second a) (second b));
  destruct (Z.eqb_spec (second a) (second b));
  destruct (Z.ltb_spec (microsecond a) (microsecond b));
  cbn [orb andb]; symmetry;
  first [ apply Z.ltb_lt; lia | apply Z.ltb_ge; lia ].
Qed.

(** [after_hours()] is [False] from 09:30:00.000000 to 16:00:00.000000 in
    New York, both ends included, and [True] at every other time of the
    day. *)
Theorem after_hours_bounds (s : state) :
  time_in_range (eastern (clock (env s))) ->
  (fst (after_hours s) = Ok false <->
   34200000000 <= microseconds (eastern (clock (env s))) <= 57600000000).
Proof.
  intros Hr. rewrite after_hours_eq. cbn [fst].
  assert (time_in_range (mkTime 9 30 0 0)) as Ho
    by (unfold time_in_range; cbn; lia).
  assert (time_in_range (mkTime 16 0 0 0)) as Hc
    by (unfold time_in_range; cbn; lia).
  rewrite (time_ltb_microseconds Hr Ho), (time_ltb_microseconds Hc Hr).
  change (microseconds (mkTime 9 30 0 0)) with 34200000000.
  change (microseconds (mkTime 16 0 0 0)) with 57600000000.
  split.
  - intros [= H]. apply orb_false_iff in H as [H1 H2].
    apply Z.ltb_ge in H1, H2. lia.
  - intros [H1 H2]. f_equal. apply orb_false_iff.
    split; apply Z.ltb_ge; lia.
Qed.

Lemma after_hours_bounds_witness :
  fst (after_hours
         (mkState (Examples.tracked Examples.monday_10am)
                  (Examples.world_at
                     (mkInstant 1704747600 (mkDate 2024 1 8) (mkTime 16 0 0 0))
                     Examples.offline)))
    = Ok false.
Proof.
  apply after_hours_bounds.
  - unfold time_in_range. cbn. lia.
  - cbn. lia.
Defined.

(** [should_update()] is [False] on every Sunday and at every time outside
    09:30-16:00, whatever time has passed; on the other days, Saturdays
    included, and inside these hours it is the test
    [time.time() - last_updated >= update_rate].  It changes nothing and
    sends nothing. *)
Theorem should_update_gate (s : state) :
  let now := clock (env s) in
  let elapsed := PrimFloat.sub (epoch now) (last_updated (self s)) in
  (weekday (today now) = 6 \/ fst (after_hours s) = Ok true ->
     fst (should_update s) = Ok false) /\
  (weekday (today now) <> 6 -> fst (after_hours s) = Ok false ->
     fst (should_update s) = Ok (PrimFloat.leb (update_rate (self s)) elapsed)) /\
  snd (should_update s) = s.
Proof.
  intros now elapsed. rewrite should_update_eq, after_hours_eq. cbn [fst snd].
  fold now. pose proof (weekday_range (today now)) as Hr.
  repeat split.
  - intros [Hs | [= Ha]].
    + rewrite Hs. reflexivity.
    + rewrite Ha. rewrite andb_false_r. reflexivity.
  - intros Hs [= Ha]. rewrite Ha.
    assert ((5 <? weekday (today now)) = false) as ->
      by (apply Z.ltb_ge; lia).
    reflexivity.
Qed.

Lemma should_update_gate_witness :
  fst (should_update
         (mkState (Examples.tracked Examples.sunday_10am)
                  (Examples.world_at Examples.sunday_10am Examples.offline)))
    = Ok false /\
  fst (should_update
         (mkState (Examples.tracked Examples.monday_10am)
                  (Examples.world_at Examples.monday_10am Examples.offline)))
    = Ok true.
Proof.
  split.
  - apply (proj1 (should_update_gate _)). left. reflexivity.
  - apply (proj1 (proj2 (should_update_gate
                           (mkState (Examples.tracked Examples.monday_10am)
                              (Examples.world_at Examples.monday_10am
                                 Examples.offline))))).
    + discriminate.
    + reflexivity.
Defined.

(** ** What a computation leaves as it is *)

Section Keeps.

Context {X : Type} (f : state -> X).

(** [c] does not change what [f] reads of the state, however it ends. *)
Definition keeps {A} (c : M state A) : Prop :=
  forall s, f (snd (c s)) = f s.

Lemma keeps_bind {A B} (c : M state A) (k : A -> M state B) :
  keeps c -> (forall a, keeps (k a)) -> keeps (bind c k).
Proof.
  intros Hc Hk s. unfold bind. specialize (Hc s).
  destruct (c s) as [[a | e] s1]; cbn [snd] in *.
  - rewrite Hk. exact Hc.
  - exact Hc.
Qed.

Lemma keeps_try {A} (body handler : M state A) :
  keeps body -> keeps handler -> keeps (try_except_request body handler).
Proof.
  intros Hb Hh s. unfold try_except_request. specialize (Hb s).
  destruct (body s) as [[a | e] s1]; cbn [snd] in *; [ exact Hb | ].
  destruct e; cbn [snd]; try exact Hb. rewrite Hh. exact Hb.
Qed.

Lemma keeps_if {A} (b : bool) (c1 c2 : M state A) :
  keeps c1 -> keeps c2 -> keeps (if b then c1 else c2).
Proof. destruct b; auto. Qed.

(** After [c], whatever follows keeps [f]. *)
Lemma bind_then_keeps {A B} (c : M state A) (k : A -> M state B) s :
  (forall a, keeps (k a)) -> f (snd (bind c k s)) = f (snd (c s)).
Proof.
  intros Hk. unfold bind. destruct (c s) as [[a | e] s1]; cbn [snd].
  - apply Hk.
  - reflexivity.
Qed.

End Keeps.

(** A statement that is no sequence: it computes, logs, raises, assigns or
    sends a request. *)
Ltac keeps_leaf :=
  let s := fresh "s" in
  intro s;
  first [ reflexivity
        | unfold requests_get_json; destruct (net _ _ _); reflexivity ].

Ltac keeps_steps :=
  repeat first
    [ apply keeps_bind; [ | intro ]
    | apply keeps_try
    | apply keeps_if
    | keeps_leaf
    | progress unfold get_value_change, get_percentage_change,
        get_crypto_name, get_stock_name, should_update, weekend,
        after_hours, api_key_valid, ticker_valid, get_current_price,
        get_previous_day_close_price, fetch_new_data ].

(** The attributes that only [__init__] and [setup_data] assign. *)
Definition identity (s : state) :=
  (api_key (self s), update_rate (self s), country (self s), ticker (self s),
   name (self s), prev_day_close_price (self s),
   ticker_valid_ (self s), api_key_valid_ (self s), data_initialized (self s)).

(** The provider and the clock. *)
Definition outside (s : state) := (net (env s), clock (env s)).

(** The requests sent so far. *)
Definition sent (s : state) : list request := calls (env s).

(** ** The credential check *)

(** [api_key_valid()] returns [True] exactly for a key of at least 32
    characters, and then it logs nothing and changes nothing; it never
    returns [False]. *)
Theorem api_key_valid_accepts (s : state) :
  (fst (api_key_valid s) = Ok true <->
   exists k, api_key (self s) = Some k /\ (32 <= String.length k)%nat) /\
  (fst (api_key_valid s) = Ok true -> snd (api_key_valid s) = s) /\
  fst (api_key_valid s) <> Ok false.
Proof.
  rewrite api_key_valid_eq. unfold key_rejected.
  destruct (api_key (self s)) as [k | ].
  - destruct (Nat.ltb_spec (String.length k) 32); cbn [fst snd].
    + repeat split; try discriminate. intros (k' & [= <-] & Hk). lia.
    + repeat split; try discriminate. intros _. exists k. auto.
  - cbn [fst snd]. repeat split; try discriminate. intros (k & [=] & _).
Qed.

(** ** The symbol search *)


(** ** The fetches *)

(** The world after a request [url] announced by the debug line [msg]. *)
Definition requested (msg : string) (url : request) (s : state) : world :=
  add_call url (add_log (DEBUG, msg) (env s)).

(** What an [except RequestException] clause that logs [msg] and falls off
    the end of the method makes of an exception [e] raised in world [w]. *)
Definition swallowed {A} (dflt : A) (msg : string) (e : exn) (o : t) (w : world)
  : result A * state :=
  match e with
  | RequestException => (Ok dflt, mkState o (add_log (ERROR, msg) w))
  | _ => (Raise e, mkState o w)
  end.

Lemma getitem_key_not_request v k : getitem_key v k <> Raise RequestException.
Proof.
  destruct v; cbn; try discriminate. destruct (assoc k d); discriminate.
Qed.

Lemma getitem_0_not_request v : getitem_0 v <> Raise RequestException.
Proof.
  destruct v as [ | | | [ | ] | [ | ] | ]; cbn; discriminate.
Qed.

(** [response["data"][0]["currency_base"]]. *)
Definition crypto_name_of (response : value) : result value :=
  match getitem_key response "data" with
  | Ok data =>
      match getitem_0 data with
      | Ok first => getitem_key first "currency_base"
      | Raise e => Raise e
      end
  | Raise e => Raise e
  end.

Lemma get_crypto_name_eq (s : state) :
  let tk := ticker (self s) in
  let url := CRYPTO_NAME_URL tk in
  let w := requested ("Fetching name for " ++ tk) url s in
  let caught e :=
    swallowed VNone ("Failed to fetch name for " ++ tk) e (self s) w in
  get_crypto_name s =
  match net (env s) (List.length (calls (env s))) url with
  | Response body =>
      match crypto_name_of body with
      | Ok full_name => (Ok full_name, mkState (self s) w)
      | Raise e => caught e
      end
  | Fails e => caught e
  end.
Proof.
  unfold get_crypto_name, crypto_name_of, swallowed, requested.
  unfold_monad. cbn [self env add_log net calls].
  destruct (net _ _ _) as [body | e]; [ | destruct e; reflexivity ].
  destruct (getitem_key body "data") as [d | e]; [ | destruct e; reflexivity ].
  destruct (getitem_0 d) as [f | e]; [ | destruct e; reflexivity ].
  destruct (getitem_key f "currency_base") as [c | e]; [ | destruct e ];
    reflexivity.
Qed.

(** [get_crypto_name] lets no [RequestException] out. *)
Lemma get_crypto_name_catches (s : state) :
  fst (get_crypto_name s) <> Raise RequestException.
Proof.
  rewrite get_crypto_name_eq. unfold swallowed.
  destruct (net _ _ _) as [body | e].
  - destruct (crypto_name_of body) as [v | e]; [ discriminate | ].
    destruct e; discriminate.
  - destruct e; discriminate.
Qed.

(** The name lookup.  One request goes to the stock endpoint.  When it
    fails with [RequestException] the method logs an error and returns
    [None].  When the body lists at least one match, the name of the first is
    returned and nothing else is sent.  When the list of matches is empty,
    the symbol is looked up as a cryptocurrency: a second request goes to the
    crypto endpoint, and the method returns what [get_crypto_name] returns
    there, its [None] for a failed request included. *)
Theorem get_stock_name_outcomes (s : state) :
  let tk := ticker (self s) in
  let url := STOCK_NAME_URL tk (country (self s)) in
  let reply := net (env s) (List.length (calls (env s))) url in
  let w := requested ("Fetching name for " ++ tk) url s in
  (reply = Fails RequestException ->
     fst (get_stock_name s) = Ok VNone /\
     sent (snd (get_stock_name s)) = (sent s ++ [url])%list) /\
  (forall body first rest,
     reply = Response body ->
     getitem_key body "data" = Ok (VList (first :: rest)) ->
     fst (get_stock_name s) = getitem_key first "name" /\
     sent (snd (get_stock_name s)) = (sent s ++ [url])%list) /\
  (forall body,
     reply = Response body ->
     getitem_key body "data" = Ok (VList []) ->
     let s1 :=
       mkState (self s)
               (add_log (DEBUG, "Checking if " ++ tk ++ " is a cryptocurrency") w) in
     get_stock_name s = get_crypto_name s1 /\
     sent (snd (get_stock_name s)) = (sent s ++ [url; CRYPTO_NAME_URL tk])%list).
Proof.
  intros tk url reply w. subst reply.
  split; [ | split ].
  - intros Hr. unfold get_stock_name. unfold_monad.
    cbn [self env add_log net calls]. fold tk. fold url. rewrite Hr.
    split; reflexivity.
  - intros body first rest Hr Hd. unfold get_stock_name. unfold_monad.
    cbn [self env add_log net calls]. fold tk. fold url. rewrite Hr, Hd.
    cbn [py_len List.length Nat.ltb Nat.leb getitem_0].
    pose proof (getitem_key_not_request first "name") as Hn.
    destruct (getitem_key first "name") as [v | e]; [ split; reflexivity | ].
    destruct e; try (split; reflexivity). congruence.
  - intros body Hr Hd s1.
    assert (get_stock_name s = get_crypto_name s1) as Heq.
    { pose proof (get_crypto_name_catches s1) as Hc.
      unfold get_stock_name. unfold bind at 1. unfold attr at 1, gets at 1.
      unfold bind at 1. unfold attr at 1, gets at 1.
      unfold bind at 1. rewrite logging_eq.
      unfold try_except_request.
      unfold bind at 1. unfold requests_get_json. cbn [self env add_log net calls].
      fold tk. fold url. rewrite Hr.
      unfold bind at 1. unfold lift at 1. rewrite Hd.
      unfold bind at 1. unfold lift at 1. cbn [py_len List.length Nat.ltb Nat.leb].
      unfold bind at 1. rewrite logging_eq. cbn [self env].
      change (mkState (self s) _) with s1.
      destruct (get_crypto_name s1) as [[v | e] s2]; [ reflexivity | ].
      destruct e; try reflexivity. cbn [fst] in Hc. congruence. }
    split; [ exact Heq | ].
    rewrite Heq, get_crypto_name_eq. unfold swallowed, requested, sent.
    subst s1 w. unfold requested. cbn [env self add_log add_call calls net].
    match goal with
    | |- context [match ?x with Response _ => _ | Fails _ => _ end] =>
        destruct x as [b | e]
    end;
      [ destruct (crypto_name_of b) as [v | e] | ]; try destruct e;
      cbn [snd env self add_log add_call calls]; rewrite <- app_assoc;
      reflexivity.
Qed.

Section Fetches.

Variable str_to_float : string -> option float.

(** [response["price"]] as a float. *)
Definition price_of (response : value) : result float :=
  match getitem_key response "price" with
  | Ok p => py_float str_to_float p
  | Raise e => Raise e
  end.

(** [response["values"][0]["previous_close"]] as a float. *)
Definition close_of (response : value) : result float :=
  match getitem_key response "values" with
  | Ok values =>
      match getitem_0 values with
      | Ok first =>
          match getitem_key first "previous_close" with
          | Ok c => py_float str_to_float c
          | Raise e => Raise e
          end
      | Raise e => Raise e
      end
  | Raise e => Raise e
  end.

Lemma get_current_price_eq (s : state) :
  let tk := ticker (self s) in
  let url := CURRENT_PRICE_URL tk (api_key (self s)) in
  let w := requested ("Fetching current price for " ++ tk) url s in
  let caught e :=
    swallowed None ("Unable to fetch current price for " ++ tk) e (self s) w in
  get_current_price str_to_float s =
  match net (env s) (List.length (calls (env s))) url with
  | Response body =>
      match price_of body with
      | Ok price => (Ok (Some price), mkState (self s) w)
      | Raise e => caught e
      end
  | Fails e => caught e
  end.
Proof.
  unfold get_current_price, price_of, swallowed, requested.
  unfold_monad. cbn [self env add_log net calls].
  destruct (net _ _ _) as [body | e]; [ | destruct e; reflexivity ].
  destruct (getitem_key body "price") as [p | e]; [ | destruct e; reflexivity ].
  destruct (py_float str_to_float p) as [x | e]; [ | destruct e ]; reflexivity.
Qed.

Lemma get_previous_day_close_price_eq (s : state) :
  let tk := ticker (self s) in
  let url := PREVIOUS_DAY_CLOSE_PRICE_URL tk (api_key (self s)) in
  let w := requested ("Fetching previous day' close price for " ++ tk) url s in
  let caught e :=
    swallowed None ("Unable to fetch previous day' close price for " ++ tk)
              e (self s) w in
  get_previous_day_close_price str_to_float s =
  match net (env s) (List.length (calls (env s))) url with
  | Response body =>
      match close_of body with
      | Ok price => (Ok (Some price), mkState (self s) w)
      | Raise e => caught e
      end
  | Fails e => caught e
  end.
Proof.
  unfold get_previous_day_close_price, close_of, swallowed, requested.
  unfold_monad. cbn [self env add_log net calls].
  destruct (net _ _ _) as [body | e]; [ | destruct e; reflexivity ].
  destruct (getitem_key body "values") as [v | e]; [ | destruct e; reflexivity ].
  destruct (getitem_0 v) as [f | e]; [ | destruct e; reflexivity ].
  destruct (getitem_key f "previous_close") as [c | e];
    [ | destruct e; reflexivity ].
  destruct (py_float str_to_float c) as [x | e]; [ | destruct e ]; reflexivity.
Qed.

(** Nothing in the two [try] blocks raises [RequestException] but the
    request. *)
Lemma py_float_not_request v : py_float str_to_float v <> Raise RequestException.
Proof.
  destruct v; cbn; try discriminate.
  - destruct (str_to_float s); discriminate.
Qed.

Lemma price_of_not_request body : price_of body <> Raise RequestException.
Proof.
  unfold price_of. destruct (getitem_key body "price") eqn:E.
  - apply py_float_not_request.
  - intros [= ->]. exact (getitem_key_not_request _ _ E).
Qed.

Lemma close_of_not_request body : close_of body <> Raise RequestException.
Proof.
  unfold close_of.
  destruct (getitem_key body "values") as [v | ] eqn:E1;
    [ | intros [= ->]; exact (getitem_key_not_request _ _ E1) ].
  destruct (getitem_0 v) as [f | ] eqn:E2;
    [ | intros [= ->]; exact (getitem_0_not_request _ E2) ].
  destruct (getitem_key f "previous_close") as [c | ] eqn:E3;
    [ | intros [= ->]; exact (getitem_key_not_request _ _ E3) ].
  apply py_float_not_request.
Qed.

(** [get_current_price] sends one request and assigns no attribute.  A
    [RequestException] makes it log an error and return [None]; a body with
    a price gives that price; any other failure - a body that is not an
    object, has no ["price"] or holds something [float] refuses - leaves
    the method as the exception it is ([TypeError], [KeyError],
    [ValueError]).  It returns [None] in no other case than the
    [RequestException]. *)
Theorem get_current_price_outcomes (s : state) :
  let tk := ticker (self s) in
  let url := CURRENT_PRICE_URL tk (api_key (self s)) in
  let reply := net (env s) (List.length (calls (env s))) url in
  let r := fst (get_current_price str_to_float s) in
  let s' := snd (get_current_price str_to_float s) in
  self s' = self s /\
  calls (env s') = (calls (env s) ++ [url])%list /\
  (r = Ok None <-> reply = Fails RequestException) /\
  (forall body x, reply = Response body -> price_of body = Ok x ->
     r = Ok (Some x)) /\
  (forall body e, reply = Response body -> price_of body = Raise e ->
     r = Raise e) /\
  (forall body, reply = Response body -> getitem_key body "price" = Raise KeyError ->
     r = Raise KeyError).
Proof.
  intros tk url reply r s'. subst r s'.
  rewrite get_current_price_eq. fold tk. fold url. fold reply.
  unfold swallowed, requested.
  split; [ | split; [ | split; [ | split; [ | split ] ] ] ].
  - destruct reply as [body | e];
      [ destruct (price_of body) as [x | e] | ]; try destruct e; reflexivity.
  - destruct reply as [body | e];
      [ destruct (price_of body) as [x | e] | ]; try destruct e; reflexivity.
  - destruct reply as [body | e].
    + pose proof (price_of_not_request body) as Hn.
      destruct (price_of body) as [x | e]; [ | destruct e ];
        cbn [fst]; split; intros H; try discriminate; congruence.
    + destruct e; cbn [fst]; split; intros H; try discriminate; reflexivity.
  - intros body x -> ->. reflexivity.
  - intros body e -> He. pose proof (price_of_not_request body) as Hn.
    rewrite He in *. destruct e; try reflexivity. congruence.
  - intros body -> He. unfold price_of. rewrite He. reflexivity.
Qed.

(** *** [update_data] on an initialised ticker *)

Lemma keeps_get_current_price {X} (f : state -> X) :
  (forall o w l, f (mkState o (add_log l w)) = f (mkState o w)) ->
  (forall o w r, f (mkState o (add_call r w)) = f (mkState o w)) ->
  keeps f (get_current_price str_to_float).
Proof.
  intros Hl Hc s. rewrite get_current_price_eq. unfold swallowed, requested.
  destruct (net _ _ _) as [body | e];
    [ destruct (price_of body) as [x | e] | ]; try destruct e;
    cbn [snd]; rewrite ?Hl, ?Hc, ?Hl; destruct s; reflexivity.
Qed.

Lemma get_current_price_sent (s : state) :
  sent (snd (get_current_price str_to_float s)) =
  (sent s ++ [CURRENT_PRICE_URL (ticker (self s)) (api_key (self s))])%list.
Proof.
  rewrite get_current_price_eq. unfold swallowed, requested, sent.
  destruct (net _ _ _) as [body | e];
    [ destruct (price_of body) as [x | e] | ]; try destruct e; reflexivity.
Qed.

Lemma fetch_new_data_sent (s : state) :
  sent (snd (fetch_new_data str_to_float s)) =
  (sent s ++ [CURRENT_PRICE_URL (ticker (self s)) (api_key (self s))])%list.
Proof.
  unfold fetch_new_data.
  unfold bind at 1. rewrite logging_eq.
  unfold bind at 1. unfold time_time at 1, gets at 1.
  unfold bind at 1. unfold on_self at 1, modify at 1. cbn [self env].
  rewrite (@bind_then_keeps _ sent).
  - rewrite get_current_price_sent. reflexivity.
  - intros c. keeps_steps.
Qed.

Lemma fetch_new_data_identity (s : state) :
  identity (snd (fetch_new_data str_to_float s)) = identity s.
Proof. revert s. change (keeps identity (fetch_new_data str_to_float)). keeps_steps. Qed.

(** The value of [should_update()]. *)
Definition due (s : state) : bool :=
  match fst (should_update s) with
  | Ok b => b
  | Raise _ => false
  end.

Lemma should_update_due (s : state) : should_update s = (Ok (due s), s).
Proof. unfold due. rewrite should_update_eq. reflexivity. Qed.

Lemma update_data_initialised (force : bool) (s : state) :
  data_initialized (self s) = true ->
  update_data str_to_float force s =
  if force || due s then fetch_new_data str_to_float s else (Ok tt, s).
Proof.
  intros Hi. rewrite update_data_unfold.
  unfold bind at 1. unfold attr at 1, gets at 1. rewrite Hi. cbn [negb].
  unfold bind at 1. unfold ret at 1.
  unfold bind at 1. destruct force; cbn [orb].
  - reflexivity.
  - rewrite should_update_due. destruct (due s); reflexivity.
Qed.

(** Once [data_initialized] is set, [update_data] never asks for the name
    or the previous close again: however it ends it has sent no request, or
    one, for the current price; and the name, the previous close, the key,
    the symbol and the flags are those it found. *)
Theorem update_data_refetches_the_price_only (force : bool) (s : state) :
  data_initialized (self s) = true ->
  let s' := snd (update_data str_to_float force s) in
  identity s' = identity s /\
  (sent s' = sent s \/
   sent s' =
     (sent s ++ [CURRENT_PRICE_URL (ticker (self s)) (api_key (self s))])%list).
Proof.
  intros Hi s'. subst s'. rewrite (update_data_initialised force s Hi).
  destruct (force || due s).
  - split; [ apply fetch_new_data_identity | right; apply fetch_new_data_sent ].
  - split; [ reflexivity | left; reflexivity ].
Qed.

(** An initialised ticker that is not due is left alone: without [force],
    when [should_update()] is false, [update_data] returns having changed
    nothing, sent nothing and logged nothing. *)
Theorem update_data_idle (s : state) :
  data_initialized (self s) = true ->
  fst (should_update s) = Ok false ->
  update_data str_to_float false s = (Ok tt, s).
Proof.
  intros Hi Hs. rewrite (update_data_initialised false s Hi).
  unfold due. rewrite Hs. reflexivity.
Qed.

(** *** The previous close *)

(** [get_previous_day_close_price] sends one request and assigns no
    attribute.  A [RequestException] makes it log an error and return
    [None], and it returns [None] in no other case; a body with a previous
    close gives that price; a body whose ["values"] is an empty list makes
    it raise [IndexError]. *)
Theorem get_previous_day_close_price_outcomes (s : state) :
  let tk := ticker (self s) in
  let url := PREVIOUS_DAY_CLOSE_PRICE_URL tk (api_key (self s)) in
  let reply := net (env s) (List.length (calls (env s))) url in
  let r := fst (get_previous_day_close_price str_to_float s) in
  let s' := snd (get_previous_day_close_price str_to_float s) in
  self s' = self s /\
  sent s' = (sent s ++ [url])%list /\
  (r = Ok None <-> reply = Fails RequestException) /\
  (forall body x, reply = Response body -> close_of body = Ok x ->
     r = Ok (Some x)) /\
  (forall body, reply = Response body ->
     getitem_key body "values" = Ok (VList []) -> r = Raise IndexError).
Proof.
  intros tk url reply r s'. subst r s'.
  rewrite get_previous_day_close_price_eq. fold tk. fold url. fold reply.
  unfold swallowed, requested, sent.
  split; [ | split; [ | split; [ | split ] ] ].
  - destruct reply as [body | e];
      [ destruct (close_of body) as [x | e] | ]; try destruct e; reflexivity.
  - destruct reply as [body | e];
      [ destruct (close_of body) as [x | e] | ]; try destruct e; reflexivity.
  - destruct reply as [body | e].
    + pose proof (close_of_not_request body) as Hn.
      destruct (close_of body) as [x | e]; [ | destruct e ];
        cbn [fst]; split; intros H; try discriminate; congruence.
    + destruct e; cbn [fst]; split; intros H; try discriminate; reflexivity.
  - intros body x -> ->. reflexivity.
  - intros body -> He. unfold close_of. rewrite He. reflexivity.
Qed.

(** *** The derived fields follow the prices *)

(** Both prices are floats, the close is not zero, and the two derived
    fields are the renderings of their difference and of its percentage. *)
Definition consistent (o : t) : Prop :=
  exists c p,
    prev_day_close_price o = Some c /\
    current_price o = Some p /\
    PrimFloat.eqb (PrimFloat.abs c) 0 = false /\
    value_change o = Some (format_2f (p - c)) /\
    percentage_change o
      = Some (format_2f (100 * ((p - c) / PrimFloat.abs c)) ++ "%").

Lemma derived_consistent (p c : float) (o : t) :
  prev_day_close_price o = Some c -> current_price o = Some p ->
  PrimFloat.eqb (PrimFloat.abs c) 0 = false ->
  consistent (derived p c o).
Proof.
  intros Hc Hp Hz. exists c, p. cbn. repeat split; assumption.
Qed.

(** Whenever [update_data] ends normally, the object it leaves is
    consistent, provided it was so before or was not initialised yet:
    a refresh recomputes both derived fields from the new price and the
    stored close, and no refresh changes nothing. *)
Theorem update_data_keeps_consistency (force : bool) (s s' : state) :
  update_data str_to_float force s = (Ok tt, s') ->
  data_initialized (self s) = false \/ consistent (self s) ->
  consistent (self s') /\ data_initialized (self s') = true.
Proof.
  intros H Hpre. rewrite update_data_unfold in H.
  apply bind_ok in H as (initialized & s0 & E0 & H).
  unfold attr, gets in E0. injection E0 as E0 E0'. subst initialized s0.
  apply bind_ok in H as (u1 & s1 & E1 & H).
  apply bind_ok in H as (go & s2 & E2 & H).
  assert (self s2 = self s1) as Hs2.
  { destruct force.
    - cbv beta iota delta [ret] in E2. injection E2 as _ <-. reflexivity.
    - pose proof (keeps_self_should_update s1) as F. rewrite E2 in F. exact F. }
  assert (consistent (self s1) /\ data_initialized (self s1) = true) as [Hc1 Hi1].
  { destruct (data_initialized (self s)) eqn:Hi; cbn [negb] in E1.
    - unfold ret in E1. cbv beta in E1. injection E1 as _ <-.
      destruct Hpre as [Hpre | Hpre]; [ discriminate | ]. auto.
    - apply bind_ok in E1 as (u & s3 & E3 & E1). destruct u.
      apply setup_data_ok in E3 as (n & c & p & E3 & Hz).
      unfold on_self, modify in E1. injection E1 as _ E1. subst s1.
      cbn [self]. rewrite E3. split; [ | reflexivity ].
      exists c, p. cbn. repeat split; assumption. }
  destruct go.
  - apply fetch_new_data_ok in H as (c & p & Hc & -> & Hz).
    rewrite Hs2 in Hc |- *. split.
    + apply derived_consistent; [ exact Hc | reflexivity | exact Hz ].
    + exact Hi1.
  - unfold ret in H. cbv beta in H. injection H as <-. rewrite Hs2. auto.
Qed.

(** *** The constructor *)

(** A [Ticker] that [Ticker(...)] returns is fully set up: its key has at
    least 32 characters, [api_key_valid] holds [True], [ticker_valid] holds
    [True] or [None] and never [False], [data_initialized] is set, both
    prices are floats and the derived fields follow them; the arguments are
    stored as given. *)
Theorem new_ticker_is_initialised
        (key : option string) (tk ctry : string) (rate : float)
        (w w' : world) (o : t) :
  new str_to_float key tk ctry rate w = (Ok o, w') ->
  key_rejected key = false /\
  (api_key o, ticker o, country o, update_rate o) = (key, tk, ctry, rate) /\
  api_key_valid_ o = Some true /\
  ticker_valid_ o <> Some false /\
  data_initialized o = true /\
  consistent o.
Proof.
  intros H. unfold new in H.
  destruct (__init__ _ _) as [[u | e] s9] eqn:E; [ | discriminate ].
  injection H as <- <-. unfold __init__ in E.
  apply bind_ok in E as (v & s1 & E1 & E).
  pose proof (keeps_self_ticker_valid
                (mkState (blank key tk ctry rate) w)) as F1.
  assert (v <> Some false) as Hv.
  { pose proof (ticker_valid_never_false
                  (mkState (blank key tk ctry rate) w)) as Hn.
    rewrite E1 in Hn. cbn [fst] in Hn. congruence. }
  rewrite E1 in F1. cbn [snd self] in F1.
  apply bind_ok in E as (u2 & s2 & E2 & E).
  unfold on_self, modify in E2. injection E2 as _ E2. subst s2.
  apply bind_ok in E as (k & s3 & E3 & E).
  rewrite api_key_valid_eq in E3. cbn [self env] in E3. rewrite F1 in E3.
  cbn [set_ticker_valid api_key blank] in E3.
  destruct (key_rejected key) eqn:Hk; [ discriminate | ].
  injection E3 as E3 E3'. subst k s3.
  apply bind_ok in E as (u4 & s4 & E4 & E).
  unfold on_self, modify in E4. injection E4 as _ E4. subst s4.
  apply bind_ok in E as (u5 & s5 & E5 & E).
  unfold on_self, modify in E5. injection E5 as _ E5. subst s5.
  apply bind_ok in E as (now & s6 & E6 & E).
  unfold time_time, gets in E6. injection E6 as E6 E6'. subst now s6.
  apply bind_ok in E as (u7 & s7 & E7 & E).
  unfold on_self, modify in E7. injection E7 as _ E7. subst s7.
  cbn [self env] in E. destruct u.
  assert ((api_key (self s9), update_rate (self s9), country (self s9),
           ticker (self s9), ticker_valid_ (self s9), api_key_valid_ (self s9),
           data_initialized (self s9))
          = (key, rate, ctry, tk, v, Some true, true) /\
          consistent (self s9)) as [Hid Hc].
  { rewrite update_data_unfold in E.
    apply bind_ok in E as (initialized & s0 & E0 & E).
    unfold attr, gets in E0. injection E0 as E0 E0'. subst initialized s0.
    cbn [self set_last_updated set_data_initialized data_initialized negb] in E.
    apply bind_ok in E as (u1 & s10 & E10 & E).
    apply bind_ok in E10 as (u & s11 & E11 & E10). destruct u.
    apply setup_data_ok in E11 as (n & c & p & E11 & Hz).
    unfold on_self, modify in E10. injection E10 as _ E10. subst s10.
    apply bind_ok in E as (go & s12 & E12 & E).
    pose proof (keeps_self_should_update
                  (mkState (set_data_initialized true (self s11)) (env s11)))
      as F12.
    rewrite E12 in F12. cbn [snd self] in F12.
    destruct go.
    - pose proof (fetch_new_data_identity s12) as Hfid. rewrite E in Hfid.
      cbn [snd] in Hfid.
      apply fetch_new_data_ok in E as (c' & p' & Hc' & Hs9 & Hz').
      split.
      + unfold identity in Hfid. rewrite F12, E11 in Hfid. cbn in Hfid.
        injection Hfid as -> -> -> -> _ _ -> -> ->. reflexivity.
      + rewrite Hs9.
        apply derived_consistent; [ exact Hc' | reflexivity | exact Hz' ].
    - unfold ret in E. cbv beta in E. injection E as <-.
      rewrite F12, E11. split.
      + reflexivity.
      + exists c, p. cbn. repeat split; assumption. }
  injection Hid as H1 H2 H3 H4 H5 H6 H7.
  repeat split; congruence.
Qed.

Lemma keeps_outside_get_stock_name : keeps outside get_stock_name.
Proof. keeps_steps. Qed.

Lemma get_stock_name_unreachable (s : state) :
  net (env s) (List.length (calls (env s)))
      (STOCK_NAME_URL (ticker (self s)) (country (self s)))
    = Fails RequestException ->
  fst (get_stock_name s) = Ok VNone /\
  sent (snd (get_stock_name s)) =
    (sent s ++ [STOCK_NAME_URL (ticker (self s)) (country (self s))])%list.
Proof.
  intros Hr. unfold get_stock_name. unfold_monad.
  cbn [self env add_log net calls]. rewrite Hr. split; reflexivity.
Qed.

(** While the provider cannot be reached no [Ticker] can be built: every
    request fails with [RequestException], each fetch swallows it and
    returns [None], and the first subtraction of the prices raises
    [TypeError] out of the constructor, after the symbol search and the
    three fetches of [setup_data] have been sent. *)
Theorem new_ticker_needs_the_provider
        (key : option string) (tk ctry : string) (rate : float) (w : world) :
  (forall n r, net w n r = Fails RequestException) ->
  key_rejected key = false ->
  fst (new str_to_float key tk ctry rate w) = Raise TypeError /\
  calls (snd (new str_to_float key tk ctry rate w)) =
    (calls w ++ [SYMBOL_SEARCH_URL tk; STOCK_NAME_URL tk ctry;
                 PREVIOUS_DAY_CLOSE_PRICE_URL tk key;
                 CURRENT_PRICE_URL tk key])%list.
Proof.
  intros Hnet Hkey. unfold new.
  destruct (__init__ _ _) as [r s'] eqn:E.
  assert (r = Raise TypeError /\
          calls (env s') =
            (calls w ++ [SYMBOL_SEARCH_URL tk; STOCK_NAME_URL tk ctry;
                         PREVIOUS_DAY_CLOSE_PRICE_URL tk key;
                         CURRENT_PRICE_URL tk key])%list) as [-> Hc].
  { unfold __init__ in E.
    unfold bind at 1 in E. rewrite ticker_valid_eq in E.
    cbn [self env blank ticker] in E.
    rewrite Hnet in E. cbn [ticker_valid_except] in E.
    unfold bind at 1 in E. unfold on_self at 1, modify at 1 in E.
    unfold bind at 1 in E. rewrite api_key_valid_eq in E.
    cbn [self env set_ticker_valid api_key blank] in E. rewrite Hkey in E.
    unfold bind at 1 in E. unfold on_self at 1, modify at 1 in E.
    unfold bind at 1 in E. unfold on_self at 1, modify at 1 in E.
    unfold bind at 1 in E. unfold time_time at 1, gets at 1 in E.
    unfold bind at 1 in E. unfold on_self at 1, modify at 1 in E.
    cbn [self env] in E.
    rewrite update_data_unfold in E.
    unfold bind at 1 in E. unfold attr at 1, gets at 1 in E.
    cbn [self data_initialized set_last_updated set_data_initialized negb] in E.
    unfold bind at 1 in E. unfold bind at 1 in E. unfold setup_data in E.
    unfold bind at 1 in E. rewrite logging_eq in E.
    unfold bind at 1 in E.
    match type of E with
    | context [get_stock_name ?s0] =>
        destruct (get_stock_name_unreachable s0 (Hnet _ _)) as [Hn1 Hn2];
        pose proof (keeps_self_get_stock_name s0) as Hn3;
        pose proof (keeps_outside_get_stock_name s0) as Hn4;
        destruct (get_stock_name s0) as [rn sn]
    end.
    cbn [fst snd self env] in Hn1, Hn2, Hn3. subst rn.
    unfold outside in Hn4. cbn [snd env add_log add_call net] in Hn4.
    injection Hn4 as Hn4 _.
    unfold bind at 1 in E. unfold on_self at 1, modify at 1 in E.
    unfold bind at 1 in E. rewrite get_previous_day_close_price_eq in E.
    cbn [self env] in E. rewrite Hn3 in E.
    cbn [set_name ticker api_key set_last_updated set_data_initialized
         set_api_key_valid set_ticker_valid blank] in E.
    rewrite Hn4, Hnet in E. cbn [swallowed] in E.
    unfold bind at 1 in E. unfold on_self at 1, modify at 1 in E.
    unfold bind at 1 in E. rewrite get_current_price_eq in E.
    cbn [self env set_prev_day_close_price ticker api_key requested
         add_log add_call net] in E.
    rewrite Hn4, Hnet in E. cbn [swallowed] in E.
    unfold bind at 1 in E. unfold on_self at 1, modify at 1 in E.
    unfold bind at 1 in E. rewrite get_value_change_eq in E.
    cbn [self current_price set_current_price py_sub fst snd env] in E.
    injection E as <- <-.
    split; [ reflexivity | ].
    unfold requested, sent, searched in *.
    cbn [calls add_log add_call env self] in *.
    rewrite Hn2. rewrite <- !app_assoc. reflexivity. }
  split; [ reflexivity | exact Hc ].
Qed.

End Fetches.

(** *** The properties above at work *)


Lemma get_current_price_outcomes_witness :
  fst (get_current_price decimal_literal
         (mkState (Examples.tracked Examples.monday_10am) Examples.monday))
    = Ok (Some 110.125%float) /\
  fst (get_current_price decimal_literal
         (mkState (Examples.tracked Examples.monday_10am)
            (Examples.world_at Examples.monday_10am
               (Examples.provider "AAA" (Response (Examples.closed_at "100"))
                                        (Response (VDict []))))))
    = Raise KeyError.
Proof.
  split.
  - apply (proj1 (proj2 (proj2 (proj2
      (get_current_price_outcomes decimal_literal
         (mkState (Examples.tracked Examples.monday_10am) Examples.monday)))))
      (Examples.priced "110.125") 110.125%float); reflexivity.
  - apply (proj2 (proj2 (proj2 (proj2 (proj2
      (get_current_price_outcomes decimal_literal
         (mkState (Examples.tracked Examples.monday_10am)
            (Examples.world_at Examples.monday_10am
               (Examples.provider "AAA" (Response (Examples.closed_at "100"))
                                        (Response (VDict []))))))))))
      (VDict [])); reflexivity.
Defined.

Lemma get_previous_day_close_price_outcomes_witness :
  fst (get_previous_day_close_price decimal_literal
         (mkState (Examples.tracked Examples.monday_10am)
            (Examples.world_at Examples.monday_10am
               (Examples.provider "AAA" (Response (VDict [("values", VList [])]))
                                        (Response (Examples.priced "110"))))))
    = Raise IndexError.
Proof.
  apply (proj2 (proj2 (proj2 (proj2
    (get_previous_day_close_price_outcomes decimal_literal
       (mkState (Examples.tracked Examples.monday_10am)
          (Examples.world_at Examples.monday_10am
             (Examples.provider "AAA" (Response (VDict [("values", VList [])]))
                                      (Response (Examples.priced "110")))))))))
    (VDict [("values", VList [])])); reflexivity.
Defined.

Lemma get_stock_name_outcomes_witness :
  let s := mkState (blank (Some Examples.key) "BTC" "US" 120)
                   (Examples.world_at Examples.monday_10am Examples.crypto_only) in
  fst (get_stock_name s) = Ok (VStr "Bitcoin") /\
  sent (snd (get_stock_name s))
    = [STOCK_NAME_URL "BTC" "US"; CRYPTO_NAME_URL "BTC"].
Proof.
  intro s.
  destruct (proj2 (proj2 (get_stock_name_outcomes s))
              (VDict [("data", VList [])]) eq_refl eq_refl) as [H1 H2].
  split.
  - rewrite H1. reflexivity.
  - exact H2.
Defined.

Lemma update_data_refetches_the_price_only_witness :
  let s := mkState (Examples.tracked Examples.monday_10am) Examples.monday in
  name (self (snd (update_data decimal_literal true s))) = VStr "Acme Inc." /\
  sent (snd (update_data decimal_literal true s))
    = [CURRENT_PRICE_URL "AAA" (Some Examples.key)].
Proof.
  intro s.
  destruct (@update_data_refetches_the_price_only decimal_literal true s eq_refl)
    as [H1 H2].
  split.
  - exact (f_equal (fun x => snd (fst (fst (fst (fst x))))) H1).
  - destruct H2 as [H2 | H2]; [ vm_compute in H2; discriminate | exact H2 ].
Defined.

Lemma update_data_idle_witness :
  let s := mkState (Examples.tracked Examples.monday_8pm)
                   (Examples.world_at Examples.monday_8pm Examples.offline) in
  update_data decimal_literal false s = (Ok tt, s).
Proof.
  intro s. apply (@update_data_idle decimal_literal s); reflexivity.
Defined.

Lemma update_data_keeps_consistency_witness :
  consistent
    (self (snd (update_data decimal_literal false
                  (Examples.fresh (Some Examples.key) "AAA")))).
Proof.
  apply (@update_data_keeps_consistency decimal_literal false
           (Examples.fresh (Some Examples.key) "AAA")).
  - vm_compute. reflexivity.
  - left. reflexivity.
Defined.

Lemma new_ticker_is_initialised_witness :
  consistent
    (match fst (new decimal_literal (Some Examples.key) "AAA" "US" 120
                    Examples.monday) with
     | Ok o => o
     | Raise _ => blank None "" "" 0
     end).
Proof.
  apply (@new_ticker_is_initialised decimal_literal
           (Some Examples.key) "AAA" "US" 120%float Examples.monday
           (snd (new decimal_literal (Some Examples.key) "AAA" "US" 120
                     Examples.monday))).
  vm_compute. reflexivity.
Defined.

Lemma new_ticker_needs_the_provider_witness :
  fst (new decimal_literal (Some Examples.key) "AAA" "US" 120
           (Examples.world_at Examples.monday_10am Examples.offline))
    = Raise TypeError.
Proof.
  apply (@new_ticker_needs_the_provider decimal_literal
           (Some Examples.key) "AAA" "US" 120%float
           (Examples.world_at Examples.monday_10am Examples.offline)).
  - intros n r. reflexivity.
  - reflexivity.
Defined.

End TickerProps.


(* ================================================================== *)
(** * [Data]: what the methods do *)
(* ================================================================== *)

Module DataFacts.

Import Py Data.
Local Open Scope py_scope.

(** Submitting one task per element of a list. *)
Lemma for_each_submit {A} (f : A -> task) (xs : list A) (s : system) :
  for_each xs (fun x => submit (f x)) s =
  (Ok tt, mkSystem (this s) (env s) (pool s ++ map f xs) (max_threads s)).
Proof.
  revert s. induction xs as [ | x xs IH]; intros s; cbn [for_each map].
  - unfold ret. rewrite app_nil_r. destruct s; reflexivity.
  - unfold bind, submit, modify. rewrite IH. cbn [this env pool max_threads].
    rewrite <- app_assoc. reflexivity.
Qed.

(** The instruments of the three sequences, in the order [update] and the
    loop of [initialize] read them. *)
Definition held (d : t) : list Instrument.t :=
  stocks d ++ cryptos d ++ forex d.

(** The tasks that [initialize] submits for a configuration. *)
Definition fetch_tasks (cfg : MatrixConfig.t) (cur : string) (rate : float)
  : list task :=
  map (fun s => fetch_stock_task s cur rate) (MatrixConfig.stocks cfg) ++
  map (fun s => fetch_crypto_task s cur rate) (MatrixConfig.cryptos cfg) ++
  map fetch_forex_task (MatrixConfig.forex cfg).

Lemma fetch_tasks_length cfg cur rate :
  List.length (fetch_tasks cfg cur rate) =
  List.length (MatrixConfig.stocks cfg ++ MatrixConfig.cryptos cfg ++
               MatrixConfig.forex cfg).
Proof. unfold fetch_tasks. rewrite !length_app, !length_map. reflexivity. Qed.

Lemma initialize_dispatch_eq (s : system) :
  initialize_dispatch s =
  (Ok tt,
   mkSystem (this s)
            (add_log (INFO, "Initializing data...") (env s))
            (pool s ++ fetch_tasks (config (this s)) (currency (this s))
                                   (currency_exchange_rate (this s)))
            (max_threads s)).
Proof.
  unfold initialize_dispatch, fetch_tasks, logging, on_env, field.
  unfold bind at 1. unfold modify at 1.
  unfold bind at 1. unfold gets at 1.
  unfold bind at 1. unfold gets at 1.
  unfold bind at 1. unfold gets at 1.
  cbn [this env pool max_threads].
  unfold bind at 1. rewrite for_each_submit.
  unfold bind at 1. rewrite for_each_submit.
  rewrite for_each_submit. cbn [this env pool max_threads].
  rewrite <- !app_assoc. reflexivity.
Qed.

(** The state in which [Data(config)] enters the loop of [initialize]. *)
Lemma post_init_eq (cfg : MatrixConfig.t) (dc : string) (w : world) :
  let cur := MatrixConfig.currency cfg in
  let rate := rate_provider w (List.length (rate_calls w)) cur in
  let n := Z.of_nat (List.length (MatrixConfig.stocks cfg ++
                                  MatrixConfig.cryptos cfg ++
                                  MatrixConfig.forex cfg)) in
  __post_init__ (mkSystem (defaults cfg dc) w [] 0) =
  (Ok tt,
   mkSystem
     (mkData cfg None None [] [] [] cur rate n SUCCESS (Some (now w)))
     (add_log (INFO, "Initializing data...") (add_rate_call (now w, cur) w))
     (fetch_tasks cfg cur rate)
     (Z.min n (cpu_count w * 2))).
Proof.
  intros cur rate n. unfold __post_init__.
  unfold field, on_this, fetch_exchange_rate, time_time, set_max_threads.
  cbv beta iota delta [bind gets modify].
  cbn [this env pool max_threads].
  rewrite initialize_dispatch_eq. reflexivity.
Qed.

(** *** [update] *)

(** The test that guards the refresh of the exchange rate. *)
Definition rate_is_stale (s : system) (last : float) : bool :=
  PrimFloat.leb 3600 (PrimFloat.sub (now (env s)) last).

(** The rate that [update] hands to the instruments. *)
Definition rate_in_use (s : system) (last : float) : float :=
  if rate_is_stale s last
  then rate_provider (env s) (List.length (rate_calls (env s)))
                     (currency (this s))
  else currency_exchange_rate (this s).

Lemma update_spec (s : system) (last : float) :
  last_updated (this s) = Some last ->
  let s' := snd (update s) in
  let rate := rate_in_use s last in
  fst (update s) = Ok SUCCESS /\
  rate_calls (env s') =
    (if rate_is_stale s last
     then rate_calls (env s) ++ [(now (env s), currency (this s))]
     else rate_calls (env s))%list /\
  currency_exchange_rate (this s') = rate /\
  last_updated (this s') = Some (now (env s)) /\
  stocks (this s') =
    map (Instrument.set_currency_exchange_rate rate) (stocks (this s)) /\
  cryptos (this s') =
    map (Instrument.set_currency_exchange_rate rate) (cryptos (this s)) /\
  forex (this s') =
    map (Instrument.set_currency_exchange_rate rate) (forex (this s)) /\
  pool s' = (pool s ++ map update_ticker_task (held (this s')))%list /\
  valid_tickers (this s') = valid_tickers (this s) /\
  now (env s') = now (env s).
Proof.
  intros Hlast s' rate. subst s' rate.
  unfold rate_in_use, rate_is_stale, update, held.
  unfold logging, field, on_this, on_env, time_time, fetch_exchange_rate.
  cbv beta iota delta [bind gets modify lift ret].
  cbn [this env pool max_threads add_log now]. rewrite Hlast. cbn [py_sub].
  destruct (PrimFloat.leb 3600 (now (env s) - last));
    cbv beta iota delta [bind gets modify lift ret];
    cbn [this env pool max_threads add_log now];
    rewrite for_each_submit;
    cbn; repeat split; reflexivity.
Qed.

(** *** The workers *)

(** A fetched instrument found invalid: the count goes down by one and a
    warning is logged. *)
Definition dropped (label : string) (i : Instrument.t) (s : system) : system :=
  mkSystem (set_valid_tickers (valid_tickers (this s) - 1) (this s))
           (add_log (WARNING,
                     label ++ Instrument.symbol i ++ " may not be valid.")
                    (env s))
           (pool s) (max_threads s).

Definition is_fetch (k : task) : bool :=
  match k with
  | update_ticker_task _ => false
  | _ => true
  end.

Lemma remove_nth_length {A} (n : nat) (l : list A) (x : A) :
  nth_error l n = Some x ->
  S (List.length (remove_nth n l)) = List.length l.
Proof.
  revert l. induction n as [ | n IH]; intros [ | y l] H; cbn in *;
    try discriminate.
  - reflexivity.
  - rewrite (IH l H). reflexivity.
Qed.

Lemma remove_nth_Forall {A} (P : A -> Prop) (n : nat) (l : list A) :
  Forall P l -> Forall P (remove_nth n l).
Proof.
  intros H. revert n. induction H as [ | y l Hy Hl IH]; intros [ | n]; cbn;
    auto.
Qed.

Section Workers.

Variable Stock Crypto : string -> string -> float -> result Instrument.t.
Variable Forex : string -> result Instrument.t.

Lemma fetch_stock_eq symbol cur rate s :
  fetch_stock Stock symbol cur rate s =
  match Stock symbol cur rate with
  | Ok i =>
      (Ok tt,
       if Instrument.valid i
       then mkSystem (set_stocks (stocks (this s) ++ [i]) (this s)) (env s)
                     (pool s) (max_threads s)
       else dropped "Stock: " i s)
  | Raise e => (Raise e, s)
  end.
Proof.
  unfold fetch_stock, dropped, logging, on_this, on_env.
  cbv beta iota delta [bind lift modify].
  destruct (Stock symbol cur rate) as [i | e]; [ | reflexivity ].
  destruct (Instrument.valid i); reflexivity.
Qed.

Lemma fetch_crypto_eq symbol cur rate s :
  fetch_crypto Crypto symbol cur rate s =
  match Crypto symbol cur rate with
  | Ok i =>
      (Ok tt,
       if Instrument.valid i
       then mkSystem (set_cryptos (cryptos (this s) ++ [i]) (this s)) (env s)
                     (pool s) (max_threads s)
       else dropped "Crypto: " i s)
  | Raise e => (Raise e, s)
  end.
Proof.
  unfold fetch_crypto, dropped, logging, on_this, on_env.
  cbv beta iota delta [bind lift modify].
  destruct (Crypto symbol cur rate) as [i | e]; [ | reflexivity ].
  destruct (Instrument.valid i); reflexivity.
Qed.

Lemma fetch_forex_eq symbol s :
  fetch_forex Forex symbol s =
  match Forex symbol with
  | Ok i =>
      (Ok tt,
       if Instrument.valid i
       then mkSystem (set_forex (forex (this s) ++ [i]) (this s)) (env s)
                     (pool s) (max_threads s)
       else dropped "Forex: " i s)
  | Raise e => (Raise e, s)
  end.
Proof.
  unfold fetch_forex, dropped, logging, on_this, on_env.
  cbv beta iota delta [bind lift modify].
  destruct (Forex symbol) as [i | e]; [ | reflexivity ].
  destruct (Instrument.valid i); reflexivity.
Qed.

(** What the constructor called by a task returns. *)
Definition constructed (k : task) : option (result Instrument.t) :=
  match k with
  | fetch_stock_task s c r => Some (Stock s c r)
  | fetch_crypto_task s c r => Some (Crypto s c r)
  | fetch_forex_task s => Some (Forex s)
  | update_ticker_task _ => None
  end.

(** The instruments still missing at the barrier. *)
Definition missing (s : system) : Z :=
  valid_tickers (this s) - Z.of_nat (List.length (held (this s))).

(** A fetch whose constructor returns brings the barrier one step closer,
    and touches neither the pool nor the clock. *)
Lemma run_fetch_task (k : task) (i : Instrument.t) (s : system) :
  constructed k = Some (Ok i) ->
  let s' := snd (run_task Stock Crypto Forex k s) in
  fst (run_task Stock Crypto Forex k s) = Ok tt /\
  missing s' = missing s - 1 /\
  pool s' = pool s /\
  max_threads s' = max_threads s.
Proof.
  unfold missing, held.
  destruct k as [sym cur rate | sym cur rate | sym | tk]; cbn [constructed];
    intros [= H]; cbn [run_task];
    [ rewrite fetch_stock_eq | rewrite fetch_crypto_eq | rewrite fetch_forex_eq ];
    rewrite H; destruct (Instrument.valid i);
    cbn [fst snd this dropped set_stocks set_cryptos set_forex
         set_valid_tickers stocks cryptos forex valid_tickers pool max_threads];
    rewrite ?length_app; cbn [List.length]; repeat split; lia.
Qed.

(** A fetch whose constructor raises changes nothing. *)
Lemma run_failed_task (k : task) (e : exn) (s : system) :
  constructed k = Some (Raise e) ->
  run_task Stock Crypto Forex k s = (Raise e, s).
Proof.
  destruct k as [sym cur rate | sym cur rate | sym | tk]; cbn [constructed];
    intros [= H]; cbn [run_task];
    [ rewrite fetch_stock_eq | rewrite fetch_crypto_eq | rewrite fetch_forex_eq ];
    rewrite H; reflexivity.
Qed.

(** *** The barrier of [initialize] *)

Lemma initialize_return_eq (s : system) :
  initialize_return s =
  (Ok SUCCESS,
   mkSystem
     (set_time (Some (strftime (env s) (MatrixConfig.clock_format (config (this s)))))
        (set_date (Some (strftime (env s) (MatrixConfig.date_format (config (this s)))))
           (this s)))
     (env s) (pool s) (max_threads s)).
Proof. reflexivity. Qed.


(** What holds of the caller and the workers all along: the pool holds
    fetches only, as many as instruments are missing, and the caller has
    not returned while a fetch is left. *)
Definition joined (m : machine) : Prop :=
  Forall (fun k => is_fetch k = true) (pool (sys m)) /\
  missing (sys m) = Z.of_nat (List.length (pool (sys m))) /\
  (forall st, main m = Returned st -> st = SUCCESS /\ pool (sys m) = []).

Lemma construct_joined cfg dc w : joined (construct cfg dc w).
Proof.
  unfold construct, joined. rewrite post_init_eq. cbn [snd sys main pool].
  repeat split; try discriminate.
  - unfold fetch_tasks. rewrite !Forall_app. repeat split;
      apply Forall_forall; intros k Hk; apply in_map_iff in Hk as (x & <- & _);
      reflexivity.
  - unfold missing, held. cbn [this valid_tickers stocks cryptos forex app
      List.length]. rewrite fetch_tasks_length. lia.
Qed.








(** *** The barrier, whatever the constructors do *)

(** A task of the pool, once run, has taken one instrument off the missing
    ones if its constructor returned, and none if it raised; the pool is not
    its business. *)
Lemma run_task_missing (k : task) (s : system) :
  is_fetch k = true ->
  let s' := snd (run_task Stock Crypto Forex k s) in
  pool s' = pool s /\
  match constructed k with
  | Some (Ok _) => missing s' = missing s - 1
  | _ => s' = s
  end.
Proof.
  intros Hf. destruct (constructed k) as [[i | e] | ] eqn:Hc.
  - destruct (run_fetch_task k s Hc) as (_ & Hm & Hp & _).
    split; assumption.
  - rewrite (run_failed_task k s Hc). split; reflexivity.
  - destruct k; discriminate.
Qed.

(** What holds all along without any assumption: the pool holds fetches
    only, at most as many as instruments are missing, and the caller has
    returned only if none is missing and none is left. *)
Definition settling (m : machine) : Prop :=
  Forall (fun k => is_fetch k = true) (pool (sys m)) /\
  Z.of_nat (List.length (pool (sys m))) <= missing (sys m) /\
  (forall st, main m = Returned st ->
     st = SUCCESS /\ pool (sys m) = [] /\ missing (sys m) = 0).

Lemma construct_settling cfg dc w : settling (construct cfg dc w).
Proof.
  destruct (construct_joined cfg dc w) as (Hf & Hm & _).
  repeat split; try assumption; try lia.
  all: intros; discriminate.
Qed.

Lemma step_settling (e : event) (m m' : machine) :
  settling m -> step Stock Crypto Forex e m = Some m' -> settling m'.
Proof.
  intros (Hfetch & Hmiss & Hmain) Hstep.
  destruct e as [n | ]; cbn [step] in Hstep.
  - destruct (nth_error (pool (sys m)) n) as [k | ] eqn:Hk; [ | discriminate ].
    injection Hstep as <-.
    assert (is_fetch k = true) as Hf.
    { rewrite Forall_forall in Hfetch. apply Hfetch.
      eapply nth_error_In; eassumption. }
    assert (main m = Waiting) as Hw.
    { destruct (main m) as [ | st] eqn:Hm; [ reflexivity | ].
      destruct (Hmain st eq_refl) as (_ & Hnil & _).
      rewrite Hnil in Hk. destruct n; discriminate. }
    set (s0 := mkSystem (this (sys m)) (env (sys m))
                        (remove_nth n (pool (sys m))) (max_threads (sys m))).
    destruct (run_task_missing k s0 Hf) as (Hp & Hc).
    pose proof (remove_nth_length _ _ Hk) as Hlen.
    unfold settling. cbn [sys main]. rewrite Hp. subst s0. cbn [pool].
    split; [ apply remove_nth_Forall; exact Hfetch | ].
    split; [ | rewrite Hw; intros; discriminate ].
    destruct (constructed k) as [[i | e] | ].
    + rewrite Hc. unfold missing in *. cbn [this]. lia.
    + rewrite Hc. unfold missing in *. cbn [this]. lia.
    + rewrite Hc. unfold missing in *. cbn [this]. lia.
  - destruct (main m) eqn:Hm; [ | discriminate ].
    destruct (initialize_waiting (this (sys m))) eqn:Hw.
    + injection Hstep as <-. repeat split; auto; congruence.
    + rewrite initialize_return_eq in Hstep. injection Hstep as <-.
      unfold settling. cbn [sys main pool]. unfold initialize_waiting in Hw.
      apply Z.ltb_ge in Hw. unfold missing, held in *. cbn [this] in *.
      assert (pool (sys m) = []) as Hnil.
      { destruct (pool (sys m)); [ reflexivity | cbn [List.length] in Hmiss; lia ]. }
      rewrite Hnil in *.
      cbn [List.length stocks cryptos forex valid_tickers set_time set_date] in *.
      repeat split; try assumption; try congruence; lia.
Qed.

Lemma run_settling (es : list event) (m m' : machine) :
  settling m -> run Stock Crypto Forex es m = Some m' -> settling m'.
Proof.
  revert m. induction es as [ | e es IH]; intros m Hj Hrun; cbn [run] in Hrun.
  - injection Hrun as <-. exact Hj.
  - destruct (step Stock Crypto Forex e m) as [m1 | ] eqn:Hstep;
      [ | discriminate ].
    eapply IH; [ | eassumption ]. eapply step_settling; eassumption.
Qed.

(** *** A constructor that raises *)

Definition raises (k : task) : Prop :=
  exists e, constructed k = Some (Raise e).

Lemma remove_nth_In {A} (x y : A) (n : nat) (l : list A) :
  In x l -> nth_error l n = Some y -> x <> y -> In x (remove_nth n l).
Proof.
  revert n. induction l as [ | z l IH]; intros [ | n] Hin Hn Hne;
    cbn in *; try contradiction.
  - injection Hn as ->. destruct Hin as [-> | Hin]; [ contradiction | exact Hin ].
  - destruct Hin as [-> | Hin]; [ left; reflexivity | right; eauto ].
Qed.

(** The caller waits, and will: a fetch that raises is in the pool, or one
    more instrument is missing than fetches are left. *)
Definition blocked (m : machine) : Prop :=
  Forall (fun k => is_fetch k = true) (pool (sys m)) /\
  Z.of_nat (List.length (pool (sys m))) <= missing (sys m) /\
  main m = Waiting /\
  ((exists k, In k (pool (sys m)) /\ raises k) \/
   Z.of_nat (List.length (pool (sys m))) + 1 <= missing (sys m)).

Lemma step_blocked (e : event) (m m' : machine) :
  blocked m -> step Stock Crypto Forex e m = Some m' -> blocked m'.
Proof.
  intros (Hfetch & Hmiss & Hw & Hbad) Hstep.
  destruct e as [n | ]; cbn [step] in Hstep.
  - destruct (nth_error (pool (sys m)) n) as [k | ] eqn:Hk; [ | discriminate ].
    injection Hstep as <-.
    assert (is_fetch k = true) as Hf.
    { rewrite Forall_forall in Hfetch. apply Hfetch.
      eapply nth_error_In; eassumption. }
    set (s0 := mkSystem (this (sys m)) (env (sys m))
                        (remove_nth n (pool (sys m))) (max_threads (sys m))).
    destruct (run_task_missing k s0 Hf) as (Hp & Hc).
    pose proof (remove_nth_length _ _ Hk) as Hlen.
    unfold blocked. cbn [sys main]. rewrite Hp. subst s0. cbn [pool].
    split; [ apply remove_nth_Forall; exact Hfetch | ].
    destruct (constructed k) as [[i | e] | ] eqn:Hck.
    + rewrite Hc. unfold missing in *. cbn [this].
      split; [ lia | ]. split; [ exact Hw | ].
      destruct Hbad as [(k0 & Hin & e0 & He0) | Hbad]; [ left | right; lia ].
      exists k0. split; [ | exists e0; exact He0 ].
      eapply remove_nth_In; try eassumption. congruence.
    + rewrite Hc. unfold missing in *. cbn [this].
      split; [ lia | ]. split; [ exact Hw | ]. right. lia.
    + destruct k; discriminate.
  - rewrite Hw in Hstep.
    assert (initialize_waiting (this (sys m)) = true) as Hwait.
    { unfold initialize_waiting. apply Z.ltb_lt.
      unfold missing, held in *.
      destruct Hbad as [(k0 & Hin & _) | Hbad]; [ | lia ].
      destruct (pool (sys m)); [ contradiction | cbn [List.length] in Hmiss; lia ]. }
    rewrite Hwait in Hstep. injection Hstep as <-.
    repeat split; assumption.
Qed.

End Workers.

End DataFacts.


(* ================================================================== *)
(** * [Data]: the specification against the code *)
(* ================================================================== *)

Module DataSpec.

Import Py Data DataFacts.
Local Open Scope py_scope.

(** [update()] called at each of the times [ts], one call after the
    other. *)
Definition updates_at (ts : list float) (m : machine) : machine :=
  fold_left (fun m x => snd (call x update m)) ts m.

(** Every time of [ts] comes less than an hour after the one before it,
    and the first less than an hour after [last]: the test of [update],
    [time.time() - self.last_updated >= 3600], is false at each of them. *)
Fixpoint within_the_hour (last : float) (ts : list float) : bool :=
  match ts with
  | [] => true
  | x :: ts' =>
      negb (PrimFloat.leb 3600 (PrimFloat.sub x last)) && within_the_hour x ts'
  end.

(** C4 (refresh of the exchange rate).  The specification wants the rate
    refreshed once 3600 seconds have passed since it was last fetched.
    [update] measures the hour from [self.last_updated], which it sets
    itself at the end of every call, and the time of the rate fetch is kept
    nowhere.  So when [update] is called again and again, each call less
    than an hour after the one before, the provider is never asked and the
    rate remains the one it was, however long ago it was fetched. *)
Theorem frequent_updates_never_refresh_the_rate
        (ts : list float) (m : machine) (last : float) :
  last_updated (this (sys m)) = Some last ->
  within_the_hour last ts = true ->
  let m' := updates_at ts m in
  rate_calls (env (sys m')) = rate_calls (env (sys m)) /\
  currency_exchange_rate (this (sys m'))
    = currency_exchange_rate (this (sys m)) /\
  last_updated (this (sys m')) = Some (List.last ts last).
Proof.
  revert m last. induction ts as [ | x ts IH]; intros m last Hlast Hts.
  - cbn. repeat split. exact Hlast.
  - cbn [within_the_hour] in Hts. apply andb_prop in Hts as (Hx & Hts).
    apply negb_true_iff in Hx.
    set (s := mkSystem (this (sys m)) (set_now x (env (sys m))) (pool (sys m))
                       (max_threads (sys m))).
    assert (sys (snd (call x update m)) = snd (update s)) as Hcall.
    { unfold call. fold s. destruct (update s); reflexivity. }
    destruct (update_spec s Hlast) as (_ & Hcalls & Hrate & Hlu & _).
    unfold rate_in_use, rate_is_stale in Hcalls, Hrate.
    cbn [s env now set_now] in Hcalls, Hrate, Hlu. rewrite Hx in Hcalls, Hrate.
    rewrite <- Hcall in Hcalls, Hrate, Hlu.
    specialize (IH (snd (call x update m)) x Hlu Hts).
    cbn zeta in IH. destruct IH as (IHc & IHr & IHl).
    cbn zeta. unfold updates_at in *. cbn [fold_left].
    rewrite IHc, IHr, IHl, Hcalls, Hrate. cbn [s this env rate_calls set_now].
    repeat split. f_equal. clear.
    destruct ts as [ | y ts]; [ reflexivity | ].
    change (List.last (x :: y :: ts) last) with (List.last (y :: ts) last).
    revert y. induction ts as [ | z ts IH]; intros y; [ reflexivity | ].
    change (List.last (y :: z :: ts) x) with (List.last (z :: ts) x).
    change (List.last (y :: z :: ts) last) with (List.last (z :: ts) last).
    apply IH.
Qed.

(** The rate is fetched at time 0, when the object is built; [update]
    runs every half hour for two hours.  At 7200 the rate is two hours old
    and the provider has been called once, at time 0. *)
Lemma frequent_updates_never_refresh_the_rate_witness :
  let m0 := construct Examples.no_tickers "USD" (Examples.data_world 0) in
  rate_calls (env (sys (updates_at [1800; 3600; 5400; 7200]%float m0)))
    = [(0%float, "EUR")] /\
  PrimFloat.leb 3600 (PrimFloat.sub 7200 0) = true.
Proof.
  intro m0. split; [ | reflexivity ].
  exact (proj1 (@frequent_updates_never_refresh_the_rate
                  [1800; 3600; 5400; 7200]%float m0 0%float eq_refl eq_refl)).
Defined.




(** The class whose constructor a fetch calls. *)
Definition class_name (k : task) : string :=
  match k with
  | fetch_stock_task _ _ _ => "Stock"
  | fetch_crypto_task _ _ _ => "Crypto"
  | fetch_forex_task _ => "Forex"
  | update_ticker_task _ => "Ticker"
  end.

Section Workers.

Variable Stock Crypto : string -> string -> float -> result Instrument.t.
Variable Forex : string -> result Instrument.t.

(** C6 (an instrument found invalid), as amended.  When the constructor
    called by [fetch_stock], [fetch_crypto] or [fetch_forex] returns an
    object whose [valid] is false, the task ends normally: the three
    sequences are as before, [valid_tickers] is one less, a warning naming
    the symbol is the last line logged, and the pool is untouched, so the
    other fetches go on. *)
Theorem invalid_instrument_is_dropped (k : task) (i : Instrument.t) (s : system) :
  constructed Stock Crypto Forex k = Some (Ok i) ->
  Instrument.valid i = false ->
  let s' := snd (run_task Stock Crypto Forex k s) in
  fst (run_task Stock Crypto Forex k s) = Ok tt /\
  stocks (this s') = stocks (this s) /\
  cryptos (this s') = cryptos (this s) /\
  forex (this s') = forex (this s) /\
  valid_tickers (this s') = valid_tickers (this s) - 1 /\
  logs (env s') =
    (logs (env s) ++
     [(WARNING, (class_name k ++ ": " ++ Instrument.symbol i
                 ++ " may not be valid.")%string)])%list /\
  pool s' = pool s.
Proof.
  intros Hc Hv.
  destruct k as [sym cur rate | sym cur rate | sym | tk];
    cbn [constructed] in Hc; try discriminate; injection Hc as Hc;
    cbn [run_task];
    [ rewrite fetch_stock_eq | rewrite fetch_crypto_eq | rewrite fetch_forex_eq ];
    rewrite Hc, Hv; repeat split; reflexivity.
Qed.


(** C9 (the barrier of [initialize]).  The specification wants
    [initialize] to end for any mix of symbols.  The fetches run on
    workers; a constructor that raises ends its worker, which has then
    neither appended an instrument nor taken one off [valid_tickers], and
    the caller goes on testing [len(...) < self.valid_tickers]: if the
    constructor of one configured symbol raises, then in every
    interleaving of task completions and tests of the loop condition the
    caller is still in its loop.  It never returns and it raises
    nothing. *)
Theorem raising_constructor_blocks_initialize
        (cfg : MatrixConfig.t) (dc : string) (w : world) (k : task)
        (es : list event) (m : machine) :
  In k (pool (sys (construct cfg dc w))) -> raises Stock Crypto Forex k ->
  run Stock Crypto Forex es (construct cfg dc w) = Some m ->
  main m = Waiting.
Proof.
  intros Hin Hk Hrun.
  assert (blocked Stock Crypto Forex (construct cfg dc w)) as H0.
  { destruct (construct_settling cfg dc w) as (Hf & Hm & _).
    repeat split; try assumption.
    left. exists k. split; assumption. }
  clear Hin. revert H0 Hrun. generalize (construct cfg dc w) as m0.
  induction es as [ | e es IH]; intros m0 H0 Hrun; cbn [run] in Hrun.
  - injection Hrun as <-. apply H0.
  - destruct (step Stock Crypto Forex e m0) as [m1 | ] eqn:Hstep;
      [ | discriminate ].
    apply (IH m1); [ | exact Hrun ]. eapply step_blocked; eassumption.
Qed.

End Workers.

Lemma invalid_instrument_is_dropped_witness :
  let s := sys (construct Examples.two_stocks "USD" (Examples.data_world 0)) in
  valid_tickers
    (this (snd (fetch_stock (Examples.knows ["AAA"]) "ZZZ" "USD" 1.25 s))) = 2.
Proof.
  intro s.
  pose proof (@invalid_instrument_is_dropped
                (Examples.knows ["AAA"]) (Examples.knows ["BTC"])
                (Examples.knows_pair [])
                (fetch_stock_task "ZZZ" "USD" 1.25)
                (Instrument.mk "ZZZ" false 1.25) s eq_refl eq_refl)
    as (_ & _ & _ & _ & H & _).
  exact H.
Defined.


(** The constructor of ZZZ raises: after all three fetches have finished
    the caller still waits. *)
Lemma raising_constructor_blocks_initialize_witness :
  match
    run (Examples.breaks_on "ZZZ") (Examples.knows ["BTC"])
        (Examples.knows_pair [])
        [Complete 0; Complete 0; Complete 0; Poll]
        (construct Examples.two_stocks "USD" (Examples.data_world 0))
  with
  | Some m => main m = Waiting /\ pool (sys m) = []
  | None => False
  end.
Proof.
  destruct (run _ _ _ _ _) as [m | ] eqn:Hrun.
  - split.
    + apply (@raising_constructor_blocks_initialize
               (Examples.breaks_on "ZZZ") (Examples.knows ["BTC"])
               (Examples.knows_pair [])
               Examples.two_stocks "USD" (Examples.data_world 0)
               (fetch_stock_task "ZZZ" "USD" 1.25)
               [Complete 0; Complete 0; Complete 0; Poll] m).
      * vm_compute. right. left. reflexivity.
      * exists KeyError. reflexivity.
      * exact Hrun.
    + vm_compute in Hrun. injection Hrun as <-. reflexivity.
  - vm_compute in Hrun. discriminate.
Defined.

End DataSpec.


(* ================================================================== *)
(** * [Data]: further properties of the methods *)
(* ================================================================== *)

Module DataProps.

Import Py Data DataFacts.
Local Open Scope py_scope.

(** ** Construction *)

(** [Data(config)] asks the rate provider once, for the currency of the
    configuration and not for the default one; it counts the configured
    symbols into [valid_tickers], bounds the pool by that count and by twice
    the number of cores, and submits one fetch per symbol, stocks first,
    then cryptos, then forex pairs, each with the configured currency and
    the rate just fetched.  The three sequences are empty when the caller
    enters the loop of [initialize]. *)
Theorem construct_submits_one_fetch_per_symbol
        (cfg : MatrixConfig.t) (dc : string) (w : world) :
  let m := construct cfg dc w in
  let d := this (sys m) in
  let n := List.length (MatrixConfig.stocks cfg ++ MatrixConfig.cryptos cfg ++
                        MatrixConfig.forex cfg) in
  currency d = MatrixConfig.currency cfg /\
  rate_calls (env (sys m))
    = (rate_calls w ++ [(now w, MatrixConfig.currency cfg)])%list /\
  currency_exchange_rate d
    = rate_provider w (List.length (rate_calls w)) (MatrixConfig.currency cfg) /\
  valid_tickers d = Z.of_nat n /\
  max_threads (sys m) = Z.min (Z.of_nat n) (cpu_count w * 2) /\
  pool (sys m)
    = fetch_tasks cfg (currency d) (currency_exchange_rate d) /\
  List.length (pool (sys m)) = n /\
  held d = [] /\
  last_updated d = Some (now w) /\
  main m = Waiting.
Proof.
  intros m d n. subst m d n. unfold construct. rewrite post_init_eq.
  cbn [sys snd this env pool max_threads main currency currency_exchange_rate
       valid_tickers last_updated add_log add_rate_call rate_calls].
  rewrite fetch_tasks_length. repeat split; reflexivity.
Qed.

(** ** [update] *)



(** [update()] gives the rate in use to every instrument it holds and
    submits one [update_ticker] call for each of them, in the order stocks,
    cryptos, forex pairs; it takes no instrument away, adds none and leaves
    [valid_tickers] alone. *)
Theorem update_submits_one_task_per_instrument (s : system) (last : float) :
  last_updated (this s) = Some last ->
  let s' := snd (update s) in
  pool s' = (pool s ++ map update_ticker_task (held (this s')))%list /\
  Forall (fun i => Instrument.currency_exchange_rate i
                   = currency_exchange_rate (this s'))
         (held (this s')) /\
  map Instrument.symbol (held (this s')) = map Instrument.symbol (held (this s)) /\
  map Instrument.valid (held (this s')) = map Instrument.valid (held (this s)) /\
  valid_tickers (this s') = valid_tickers (this s).
Proof.
  intros Hlast s'.
  destruct (update_spec s Hlast)
    as (_ & _ & Hrate & _ & Hs & Hc & Hf & Hpool & Hv & _).
  fold s' in Hrate, Hs, Hc, Hf, Hpool, Hv.
  split; [ exact Hpool | ]. split; [ | split; [ | split; [ | exact Hv ] ] ].
  - unfold held. rewrite Hs, Hc, Hf, Hrate, <- !map_app.
    apply Forall_forall. intros i Hi. apply in_map_iff in Hi as (j & <- & _).
    reflexivity.
  - unfold held. rewrite Hs, Hc, Hf, <- !map_app, map_map. reflexivity.
  - unfold held. rewrite Hs, Hc, Hf, <- !map_app, map_map. reflexivity.
Qed.

(** The object holds the stock AAA and the crypto BTC, both with the rate
    1 it has itself; it was last updated at time 0 and [update] runs at
    3600.  The rate is fetched anew, 1.25, and given to both instruments;
    one [update_ticker] call is submitted for each, the stock first. *)
Lemma update_submits_one_task_per_instrument_witness :
  let d := mkData Examples.two_stocks None None
                  [Instrument.mk "BTC" true 1] [Instrument.mk "AAA" true 1] []
                  "USD" 1 2 SUCCESS (Some 0%float) in
  let s := mkSystem d (Examples.data_world 3600) [] 8 in
  pool (snd (update s))
    = [update_ticker_task (Instrument.mk "AAA" true 1.25);
       update_ticker_task (Instrument.mk "BTC" true 1.25)] /\
  map Instrument.symbol (held (this (snd (update s)))) = ["AAA"; "BTC"] /\
  valid_tickers (this (snd (update s))) = 2.
Proof.
  intros d s.
  destruct (@update_submits_one_task_per_instrument s 0%float eq_refl)
    as (Hp & _ & Hs & _ & Hv).
  split; [ exact Hp | ]. split; [ exact Hs | exact Hv ].
Defined.

(** ** The workers *)

Section Workers.

Variable Stock Crypto : string -> string -> float -> result Instrument.t.
Variable Forex : string -> result Instrument.t.

(** The sequence a fetch appends to. *)
Definition sequence_of (k : task) (d : t) : list Instrument.t :=
  match k with
  | fetch_stock_task _ _ _ => stocks d
  | fetch_crypto_task _ _ _ => cryptos d
  | fetch_forex_task _ => forex d
  | update_ticker_task _ => []
  end.

(** When the constructor called by a fetch returns a valid object, the
    object goes to the end of the sequence of its kind.  The two other
    sequences, [valid_tickers], the log and the pool stay as they are. *)
Theorem valid_instrument_is_kept (k : task) (i : Instrument.t) (s : system) :
  constructed Stock Crypto Forex k = Some (Ok i) ->
  Instrument.valid i = true ->
  let s' := snd (run_task Stock Crypto Forex k s) in
  fst (run_task Stock Crypto Forex k s) = Ok tt /\
  sequence_of k (this s') = (sequence_of k (this s) ++ [i])%list /\
  List.length (held (this s')) = S (List.length (held (this s))) /\
  valid_tickers (this s') = valid_tickers (this s) /\
  env s' = env s /\
  pool s' = pool s.
Proof.
  intros Hc Hv.
  destruct k as [sym cur rate | sym cur rate | sym | tk];
    cbn [constructed] in Hc; try discriminate; injection Hc as Hc;
    cbn [run_task];
    [ rewrite fetch_stock_eq | rewrite fetch_crypto_eq | rewrite fetch_forex_eq ];
    rewrite Hc, Hv; unfold held;
    cbn [fst snd this env pool sequence_of stocks cryptos forex valid_tickers
         set_stocks set_cryptos set_forex];
    rewrite ?length_app; cbn [List.length]; repeat split; lia.
Qed.

(** *** The barrier, whatever the constructors do *)


(** Whatever the constructors do, and in every interleaving: the three
    sequences never hold more instruments than [valid_tickers] says, and
    [initialize] returns only when they hold exactly that many and every
    fetch has finished. *)
Theorem barrier_opens_only_when_every_fetch_is_in
        (cfg : MatrixConfig.t) (dc : string) (w : world)
        (es : list event) (m : machine) :
  run Stock Crypto Forex es (construct cfg dc w) = Some m ->
  Z.of_nat (List.length (held (this (sys m)))) <= valid_tickers (this (sys m)) /\
  (forall st, main m = Returned st ->
     st = SUCCESS /\
     Z.of_nat (List.length (held (this (sys m)))) = valid_tickers (this (sys m)) /\
     pool (sys m) = []).
Proof.
  intros Hrun.
  destruct (@run_settling Stock Crypto Forex es _ _
                          (construct_settling cfg dc w) Hrun)
    as (_ & Hmiss & Hmain).
  unfold missing in *. split; [ lia | ].
  intros st Hst. destruct (Hmain st Hst) as (-> & Hnil & Hz).
  repeat split; [ lia | exact Hnil ].
Qed.

(** *** When every constructor returns *)


(** *** The outcome does not depend on the order *)










End Workers.

Lemma valid_instrument_is_kept_witness :
  let s := sys (construct Examples.two_stocks "USD" (Examples.data_world 0)) in
  stocks (this (snd (fetch_stock (Examples.knows ["AAA"]) "AAA" "USD" 1.25 s)))
    = [Instrument.mk "AAA" true 1.25].
Proof.
  intro s.
  destruct (@valid_instrument_is_kept
              (Examples.knows ["AAA"]) (Examples.knows ["BTC"])
              (Examples.knows_pair [])
              (fetch_stock_task "AAA" "USD" 1.25)
              (Instrument.mk "AAA" true 1.25) s eq_refl eq_refl)
    as (_ & H & _).
  exact H.
Defined.

(** ZZZ and BTC are fetched, the caller tests the loop: it has not
    returned, while AAA is still being fetched. *)
Lemma barrier_opens_only_when_every_fetch_is_in_witness :
  match
    run (Examples.knows ["AAA"]) (Examples.knows ["BTC"]) (Examples.knows_pair [])
        [Complete 1; Complete 1; Poll]
        (construct Examples.two_stocks "USD" (Examples.data_world 0))
  with
  | Some m =>
      main m = Waiting /\
      Z.of_nat (List.length (held (this (sys m)))) <= valid_tickers (this (sys m))
  | None => False
  end.
Proof.
  destruct (run _ _ _ _ _) as [m | ] eqn:Hrun.
  - split.
    + vm_compute in Hrun. injection Hrun as <-. reflexivity.
    + exact (proj1 (@barrier_opens_only_when_every_fetch_is_in
                      (Examples.knows ["AAA"]) (Examples.knows ["BTC"])
                      (Examples.knows_pair [])
                      Examples.two_stocks "USD" (Examples.data_world 0)
                      [Complete 1; Complete 1; Poll] m Hrun)).
  - vm_compute in Hrun. discriminate.
Defined.




End DataProps.
